(** * Moderator-telegram-bot: warning store, configuration and command handlers

    A shallow embedding of [group_bot/config.py], [group_bot/storage.py] and
    [group_bot/bot.py], followed by the properties of the specification that
    were checked against it.

    Conventions of the embedding:
    - Python [int] is [Z]. A [str] is the [string] of its UTF-8 bytes; its
      characters are the code points these bytes decode to, and whitespace
      and decimal digits are those of Unicode 14.0, the version of
      CPython 3.11.
    - A [dict] is a [gmap]: equality of maps is equality of dicts; iteration
      order is that of [map_to_list], not insertion order.
    - An exception is a value of [exn]; a function that can raise returns a
      [result].
    - A file is the JSON value [json.load] reads from it and [json.dump]
      writes to it.
    - A [datetime] is its Unix time in seconds, with the range of [datetime]
      and of [timedelta]; the date of a message is a 32-bit Unix time.
    - A call on the Bot API is recorded and returns; failures of the
      transport are not modelled. *)

From Stdlib Require Import ZArith Ascii String List.
From stdpp Require Import base option list strings pretty gmap fin_maps.

Set Warnings "-register-all".

Local Open Scope Z_scope.
Local Open Scope string_scope.

(** ** Exceptions and results *)

Inductive exn : Type :=
  | AttributeError            (* attribute access on [None] or on a non-dict *)
  | TypeError
  | ValueError
  | OverflowError
  | RuntimeError (msg : string).

Inductive result (A : Type) : Type :=
  | Ok (a : A)
  | Raise (e : exn).
Arguments Ok {A} a.
Arguments Raise {A} e.

(** ** Python built-ins used by the sources *)

Module Py.

Definition code (c : ascii) : N := N_of_ascii c.

(** *** [str]

    A [str] is held as its UTF-8 encoding, the bytes the environment and the
    JSON file hold. [chars] lists its characters: the code point of each with
    the bytes that encode it. A byte that is part of no well-formed sequence
    is a character of its own, the lone surrogate U+DC00 + byte, as
    [os.environ] decodes it (surrogateescape). *)

Definition between (lo hi : N) (b : ascii) : bool :=
  ((lo <=? code b) && (code b <=? hi))%N.

Definition continuation (b : ascii) : bool := between 0x80 0xBF b.

(** The second byte of a sequence of three or four bytes: overlong forms,
    surrogates and code points above U+10FFFF are not well-formed. *)
Definition second (b0 b1 : ascii) : bool :=
  if (code b0 =? 0xE0)%N then between 0xA0 0xBF b1
  else if (code b0 =? 0xED)%N then between 0x80 0x9F b1
  else if (code b0 =? 0xF0)%N then between 0x90 0xBF b1
  else if (code b0 =? 0xF4)%N then between 0x80 0x8F b1
  else continuation b1.

(** The six bits a continuation byte carries. *)
Definition low (b : ascii) : N := (code b - 0x80)%N.

Definition escaped (b : ascii) : N * string := ((0xDC00 + code b)%N, String b "").

Fixpoint chars (s : string) : list (N * string) :=
  match s with
  | EmptyString => []
  | String b0 s1 =>
      if (code b0 <? 0x80)%N then (code b0, String b0 "") :: chars s1
      else
        match s1 with
        | EmptyString => escaped b0 :: chars s1
        | String b1 s2 =>
            if between 0xC2 0xDF b0 && continuation b1
            then (((code b0 - 0xC0) * 64 + low b1)%N, String b0 (String b1 ""))
                 :: chars s2
            else
              match s2 with
              | EmptyString => escaped b0 :: chars s1
              | String b2 s3 =>
                  if between 0xE0 0xEF b0 && second b0 b1 && continuation b2
                  then (((code b0 - 0xE0) * 4096 + low b1 * 64 + low b2)%N,
                        String b0 (String b1 (String b2 "")))
                       :: chars s3
                  else
                    match s3 with
                    | EmptyString => escaped b0 :: chars s1
                    | String b3 s4 =>
                        if between 0xF0 0xF4 b0 && second b0 b1
                           && continuation b2 && continuation b3
                        then (((code b0 - 0xF0) * 262144 + low b1 * 4096
                               + low b2 * 64 + low b3)%N,
                              String b0 (String b1 (String b2 (String b3 ""))))
                             :: chars s4
                        else escaped b0 :: chars s1
                    end
              end
        end
  end.

(** The code points of a [str]. *)
Definition points (s : string) : list N := fst <$> chars s.

(** The [str] of a list of characters. *)
Fixpoint join (l : list (N * string)) : string :=
  match l with
  | [] => EmptyString
  | c :: l' => c.2 ++ join l'
  end.

(** [str.isspace] on a character (Unicode 14.0, the version of CPython 3.11):
    TAB..CR, FS..US, the space, and the non-ASCII characters of bidirectional
    type WS, B or S or of category Zs. This is the set [str.strip()]
    removes. *)
Definition isspace (c : N) : bool :=
  ((9 <=? c) && (c <=? 13) || (28 <=? c) && (c <=? 32)
   || (c =? 0x85) || (c =? 0xA0) || (c =? 0x1680)
   || (0x2000 <=? c) && (c <=? 0x200A)
   || (c =? 0x2028) || (c =? 0x2029) || (c =? 0x202F) || (c =? 0x205F)
   || (c =? 0x3000))%N.

(** The whitespace [int(str)] skips around a literal: TAB..CR and the
    space. *)
Definition int_isspace (c : N) : bool :=
  ((9 <=? c) && (c <=? 13) || (c =? 32))%N.

Fixpoint lstrip_with {A} (p : A -> bool) (l : list A) : list A :=
  match l with
  | [] => []
  | c :: l' => if p c then lstrip_with p l' else l
  end.

Fixpoint rstrip_with {A} (p : A -> bool) (l : list A) : list A :=
  match l with
  | [] => []
  | c :: l' =>
      match rstrip_with p l' with
      | [] => if p c then [] else [c]
      | r => c :: r
      end
  end.

Definition strip_with {A} (p : A -> bool) (l : list A) : list A :=
  rstrip_with p (lstrip_with p l).

(** [s.strip()] *)
Definition strip (s : string) : string :=
  join (strip_with (λ c : N * string, isspace c.1) (chars s)).

Definition all_chars (p : N -> bool) (s : string) : bool := forallb p (points s).

(** The characters with a decimal digit value (Unicode 14.0, the version of
    CPython 3.11) come in runs of ten, for the digits 0 to 9 in order; these
    are the zeros of the runs. *)
Definition decimal_zeros : list N :=
  [0x30; 0x660; 0x6F0; 0x7C0; 0x966; 0x9E6; 0xA66; 0xAE6; 0xB66; 0xBE6; 0xC66;
   0xCE6; 0xD66; 0xDE6; 0xE50; 0xED0; 0xF20; 0x1040; 0x1090; 0x17E0; 0x1810;
   0x1946; 0x19D0; 0x1A80; 0x1A90; 0x1B50; 0x1BB0; 0x1C40; 0x1C50; 0xA620;
   0xA8D0; 0xA900; 0xA9D0; 0xA9F0; 0xAA50; 0xABF0; 0xFF10; 0x104A0; 0x10D30;
   0x11066; 0x110F0; 0x11136; 0x111D0; 0x112F0; 0x11450; 0x114D0; 0x11650;
   0x116C0; 0x11730; 0x118E0; 0x11950; 0x11C50; 0x11D50; 0x11DA0; 0x16A60;
   0x16AC0; 0x16B50; 0x1D7CE; 0x1D7D8; 0x1D7E2; 0x1D7EC; 0x1D7F6; 0x1E140;
   0x1E2F0; 0x1E950; 0x1FBF0]%N.

(** The decimal digit value of a character, if it has one. *)
Definition decimal (c : N) : option N :=
  (λ zero, c - zero)%N
    <$> List.find (λ zero, (zero <=? c) && (c <? zero + 10))%N decimal_zeros.

(** The character [int(str)] reads in the place of a character: one below
    U+007F is read as it is, another whitespace character as a space, another
    decimal digit as its ASCII digit, and any other as a question mark. *)
Definition to_ascii (c : N) : N :=
  if (c <? 127)%N then c
  else if isspace c then 32%N
  else match decimal c with
       | Some d => (48 + d)%N
       | None => 63%N
       end.

Definition digit_value (c : N) : option Z :=
  if ((48 <=? c) && (c <=? 57))%N then Some (Z.of_N c - 48) else None.

(** [sys.int_max_str_digits], at its default. *)
Definition int_max_str_digits : nat := 4300.

(** The digits of a base-10 literal: a digit, then digits each optionally
    preceded by one underscore. [acc] is the value read so far, [count] the
    number of digits read, [after_digit] whether the previous character was
    a digit. *)
Fixpoint int_digits (acc : Z) (count : nat) (after_digit : bool) (l : list N)
  : option Z :=
  match l with
  | [] =>
      if after_digit && (count <=? int_max_str_digits)%nat then Some acc else None
  | c :: l' =>
      match digit_value c with
      | Some d => int_digits (10 * acc + d) (S count) true l'
      | None =>
          if (c =? 95)%N && after_digit then int_digits acc count false l'
          else None
      end
  end.

(** [int(s)] for a string [s]: [None] stands for [ValueError]. The literal
    may have a sign, 43 or 45, and underscores, 95. *)
Definition int (s : string) : option Z :=
  match strip_with int_isspace (to_ascii <$> points s) with
  | [] => None
  | c :: r =>
      if (c =? 43)%N then int_digits 0 0 false r
      else if (c =? 45)%N then Z.opp <$> int_digits 0 0 false r
      else int_digits 0 0 false (c :: r)
  end.

(** [str(n)] for an integer [n]. *)
Definition str (n : Z) : string := pretty n.

Definition lower_char (c : ascii) : ascii :=
  if ((65 <=? code c) && (code c <=? 90))%N
  then ascii_of_N (code c + 32) else c.

(** [s.lower()] on the ASCII letters. No character outside ASCII has one of
    the letters and digits of 1, true and yes in its lower case, so the
    comparison of [from_env] with these words is that of the source. *)
Fixpoint lower (s : string) : string :=
  match s with
  | EmptyString => EmptyString
  | String c s' => String (lower_char c) (lower s')
  end.

(** *** [datetime]

    An aware [datetime] in UTC is held as its Unix time in seconds, a
    [timedelta] as its length in seconds. *)

(** 0001-01-01 00:00:00 and 9999-12-31 23:59:59, the first and the last
    second of [datetime]. *)
Definition datetime_min : Z := -62135596800.
Definition datetime_max : Z := 253402300799.

(** [timedelta(minutes=minutes)]: its days, the minutes divided by 1440 and
    rounded down, are at most 999999999 either way. *)
Definition timedelta (minutes : Z) : result Z :=
  if (-999999999 <=? minutes / 1440)%Z && (minutes / 1440 <=? 999999999)%Z
  then Ok (60 * minutes)
  else Raise OverflowError.

(** [date + delta] *)
Definition datetime_add (date delta : Z) : result Z :=
  if (datetime_min <=? date + delta)%Z && (date + delta <=? datetime_max)%Z
  then Ok (date + delta)
  else Raise OverflowError.

End Py.

(** ** group_bot/config.py *)

Module config.

(** [os.environ] *)
Abbreviation environ := (gmap string string).

Definition _env (environ : environ) (key : string) (default : option string)
  : option string :=
  match environ !! key with
  | None => default
  | Some value => if String.eqb (Py.strip value) "" then default else Some value
  end.

Module Settings.

Record t : Type := mk {
  bot_token : string;
  warnings_limit : Z;
  storage_path : string;
  admin_only_links : bool
}.

Definition missing_token : exn :=
  RuntimeError
    "Set TELEGRAM_BOT_TOKEN in your environment (use .env.example as a template).".

Definition bad_limit : exn := RuntimeError "WARNINGS_LIMIT must be an integer".

(** The three accepted spellings of a true [ADMIN_ONLY_LINKS]. *)
Definition truthy (s : string) : bool :=
  String.eqb s "1" || String.eqb s "true" || String.eqb s "yes".

Definition from_env (environ : environ) : result t :=
  match _env environ "TELEGRAM_BOT_TOKEN" None with
  | None | Some EmptyString => Raise missing_token
  | Some token =>
      (* with a default, [_env] does not return [None] *)
      let limit_raw := default "3" (_env environ "WARNINGS_LIMIT" (Some "3")) in
      match Py.int limit_raw with
      | None => Raise bad_limit
      | Some n =>
          let warnings_limit := Z.max 1 n in
          let storage_path :=
            default "./warnings.json"
              (_env environ "WARNINGS_STORAGE" (Some "./warnings.json")) in
          let admin_only_links :=
            truthy (Py.lower
              (default "true" (_env environ "ADMIN_ONLY_LINKS" (Some "true")))) in
          Ok (mk token warnings_limit storage_path admin_only_links)
      end
  end.

End Settings.

End config.

(** ** group_bot/storage.py *)

(** A JSON document as [json.load] returns it; the members of an object are
    listed in the order [items()] yields them. Numbers with a fraction or an
    exponent are not modelled: the store never writes one. *)
Inductive json : Type :=
  | JNull
  | JBool (b : bool)
  | JInt (n : Z)
  | JStr (s : string)
  | JArr (l : list json)
  | JObj (members : list (string * json)).

(** The files on disk that hold a JSON document, by path. *)
Abbreviation files := (gmap string json).

Module storage.

(** [value.items()], for the value of a JSON member. *)
Definition items (value : json) : result (list (string * json)) :=
  match value with
  | JObj members => Ok members
  | _ => Raise AttributeError
  end.

(** [int(count)], for the value of a JSON member. *)
Definition int_of_json (count : json) : result Z :=
  match count with
  | JInt n => Ok n
  | JBool b => Ok (if b then 1 else 0)
  | JStr s => match Py.int s with Some n => Ok n | None => Raise ValueError end
  | JNull | JArr _ | JObj _ => Raise TypeError
  end.

Module WarningStore.

(** [self._data]: chat key to user key to count. A missing key of the
    [defaultdict] is an absent key of the map. *)
Abbreviation data := (gmap string (gmap string Z)).

Record t : Type := mk {
  path : string;
  _data : data
}.

(** A method runs on the object and the disk, and leaves both behind. *)
Definition method (A : Type) : Type := t * files -> A * (t * files).

(** [d.get(chat_key, {})] *)
Definition users_of (d : data) (chat_key : string) : gmap string Z :=
  default ∅ (d !! chat_key).

(** [d[chat_key][user_key] = count] on the nested [defaultdict]. *)
Definition setitem (d : data) (chat_key user_key : string) (count : Z) : data :=
  <[chat_key := <[user_key := count]> (users_of d chat_key)]> d.

(** The inner loop of [_load] over the users of one chat; [str] of a key of
    the document is the key. *)
Fixpoint load_users (d : data) (chat_id : string) (users : list (string * json))
  : result data :=
  match users with
  | [] => Ok d
  | (user_id, count) :: rest =>
      match int_of_json count with
      | Raise e => Raise e
      | Ok n => load_users (setitem d chat_id user_id n) chat_id rest
      end
  end.

(** The outer loop of [_load] over the chats of the document. *)
Fixpoint load_chats (d : data) (raw : list (string * json)) : result data :=
  match raw with
  | [] => Ok d
  | (chat_id, users) :: rest =>
      match items users with
      | Raise e => Raise e
      | Ok us =>
          match load_users d chat_id us with
          | Raise e => Raise e
          | Ok d' => load_chats d' rest
          end
      end
  end.

Definition _load (self : t) (disk : files) : result t :=
  match disk !! path self with
  | None => Ok self
  | Some raw =>
      match items raw with
      | Raise e => Raise e
      | Ok chats =>
          match load_chats (_data self) chats with
          | Raise e => Raise e
          | Ok d => Ok (mk (path self) d)
          end
      end
  end.

(** [WarningStore(path)] *)
Definition __init__ (path : string) (disk : files) : result t :=
  _load (mk path ∅) disk.

Definition users_json (users : gmap string Z) : json :=
  JObj ((λ p : string * Z, (p.1, JInt p.2)) <$> map_to_list users).

(** The dict [_save] hands to [json.dump]. *)
Definition serializable (d : data) : json :=
  JObj ((λ p : string * gmap string Z, (p.1, users_json p.2)) <$> map_to_list d).

Definition _save : method unit := λ '(self, disk),
  (tt, (self, <[path self := serializable (_data self)]> disk)).

Definition increment (chat_id user_id : Z) : method Z := λ '(self, disk),
  let chat_key := Py.str chat_id in
  let user_key := Py.str user_id in
  let count := default 0 (users_of (_data self) chat_key !! user_key) + 1 in
  let self := mk (path self) (setitem (_data self) chat_key user_key count) in
  let '(_, (self, disk)) := _save (self, disk) in
  (default 0 (users_of (_data self) chat_key !! user_key), (self, disk)).

Definition reset (chat_id user_id : Z) : method unit := λ '(self, disk),
  let chat_key := Py.str chat_id in
  let user_key := Py.str user_id in
  match users_of (_data self) chat_key !! user_key with
  | Some _ =>
      let self :=
        mk (path self)
           (<[chat_key := delete user_key (users_of (_data self) chat_key)]>
              (_data self)) in
      _save (self, disk)
  | None => (tt, (self, disk))
  end.

Definition get (chat_id user_id : Z) : method Z := λ '(self, disk),
  let chat_key := Py.str chat_id in
  let user_key := Py.str user_id in
  (default 0 (users_of (_data self) chat_key !! user_key), (self, disk)).

Definition get_all (chat_id : Z) : method (gmap string Z) := λ '(self, disk),
  let chat_key := Py.str chat_id in
  (users_of (_data self) chat_key, (self, disk)).

End WarningStore.

End storage.

(** ** The telegram objects the handlers read *)

Module User.
Record t : Type := mk { id : Z }.
End User.

Module Chat.
Record t : Type := mk { id : Z }.
End Chat.

(** The date of a message: the Unix time the platform sends, a 32-bit integer
    that is not negative, which the framework turns into an aware [datetime]
    in UTC. *)
Module Date.
Record t : Type := mk {
  timestamp : Z;
  int32 : (0 <=? timestamp)%Z && (timestamp <? 2 ^ 31)%Z = true
}.
End Date.

Coercion Date.timestamp : Date.t >-> Z.

Module Message.
(** [reply_to_message] is a message itself. *)
Inductive t : Type := mk {
  message_id : Z;
  date : Date.t;
  from_user : option User.t;
  reply_to_message : option t;
  new_chat_members : list User.t
}.
End Message.

Inductive ChatMemberStatus : Type :=
  | OWNER | ADMINISTRATOR | MEMBER | RESTRICTED | LEFT | BANNED.

Module ChatMember.
Record t : Type := mk { user : User.t; status : ChatMemberStatus }.
End ChatMember.

Module ChatMemberUpdated.
Record t : Type := mk { chat : Chat.t; new_chat_member : ChatMember.t }.
End ChatMemberUpdated.

Module Update.
(** [message] is [None] for an update that is not a new message: an edited
    message, which comes in [edited_message], or a membership change. Every
    update these handlers are registered for carries a chat. *)
Record t : Type := mk {
  message : option Message.t;
  edited_message : option Message.t;
  effective_chat : Chat.t;
  effective_user : option User.t;
  chat_member : option ChatMemberUpdated.t
}.
End Update.

Module ChatPermissions.
(** The keyword arguments the handlers pass; [None] is an argument left out. *)
Record t : Type := mk {
  can_send_messages : option bool;
  can_send_media_messages : option bool;
  can_send_other_messages : option bool;
  can_add_web_page_previews : option bool;
  can_send_audios : option bool;
  can_send_documents : option bool;
  can_send_photos : option bool;
  can_send_videos : option bool;
  can_send_video_notes : option bool;
  can_send_voice_notes : option bool
}.

(** [ChatPermissions(can_send_messages=False)] *)
Definition muted : t :=
  mk (Some false) None None None None None None None None None.

(** The ten permissions of [unmute] and [unlock_chat], all [True]. *)
Definition open : t :=
  mk (Some true) (Some true) (Some true) (Some true) (Some true)
     (Some true) (Some true) (Some true) (Some true) (Some true).
End ChatPermissions.

(** The texts the handlers send, one constructor per literal of bot.py (the
    line of the literal is given). An f-string carries its arguments. *)
Inductive text : Type :=
  | text_start                                     (* 35 *)
  | text_help                                      (* 56 *)
  | text_rules                                     (* 77 *)
  | text_welcome (member : User.t)                 (* 91 *)
  | text_warn_needs_reply                          (* 98 *)
  | text_warn_admins_only                          (* 108 *)
  | text_warned (new_count : Z) (target : User.t)  (* 116 *)
  | text_auto_muted (target : User.t)              (* 124 *)
  | text_warns_needs_reply                         (* 131 *)
  | text_warns (target : User.t) (count : Z)       (* 142 *)
  | text_unmute_needs_reply                        (* 152 *)
  | text_unmute_admins_only                        (* 162 *)
  | text_unmuted (target : User.t)                 (* 180 *)
  | text_mute_needs_reply                          (* 188 *)
  | text_mute_admins_only                          (* 198 *)
  | text_muted (target : User.t) (minutes : Z)     (* 214 *)
  | text_ban_needs_reply                           (* 221 *)
  | text_ban_admins_only                           (* 231 *)
  | text_banned (target : User.t)                  (* 236 *)
  | text_lock_admins_only                          (* 244 *)
  | text_locked                                    (* 249 *)
  | text_unlock_admins_only                        (* 256 *)
  | text_unlocked                                  (* 272 *)
  | text_no_warnings                               (* 280 *)
  | text_stats (lines : list (string * Z))         (* 283-287 *)
  | text_reset_needs_reply                         (* 292 *)
  | text_reset_admins_only                         (* 302 *)
  | text_reset_done (target : User.t)              (* 308 *)
  | text_pin_needs_reply                           (* 314 *)
  | text_pin_admins_only                           (* 320 *)
  | text_pinned                                    (* 324 *)
  | text_links_forbidden (user : User.t).          (* 342 *)

(** The calls a handler makes on the Bot API, as they reach the platform. *)
Module Api.
Inductive call : Type :=
  | get_chat_administrators (chat_id : Z)
  | reply_text (message_id : Z) (body : text)
  | send_message (chat_id : Z) (body : text)
  | restrict_chat_member (chat_id user_id : Z)
      (permissions : ChatPermissions.t) (until_date : option Z)
  | ban_chat_member (chat_id user_id : Z)
  | set_chat_permissions (chat_id : Z) (permissions : ChatPermissions.t)
  | pin (message_id : Z)
  | delete (message_id : Z).
End Api.

(** ** group_bot/bot.py *)

Module bot.

Import config storage.

(** [context.application.bot_data]: the keys [build_application] sets, and
    the key [admin_ids], which only [track_admin] creates. The entry [bot] is
    [context.bot] itself. *)
Record bot_data : Type := mk_bot_data {
  settings : Settings.t;
  warnings : WarningStore.t;
  admin_ids : option (gmap Z (gset Z))
}.

(** What a handler can change: the application's [bot_data] (and the store
    object in it), the disk, and the calls sent to the platform so far. *)
Record world : Type := mk_world {
  data : bot_data;
  disk : files;
  calls : list Api.call
}.

(** [context.bot] and [context.args]. The bot answers
    [get_chat_administrators] from the platform; the lists do not change
    while one update is handled. *)
Record context : Type := mk_context {
  chat_administrators : Z -> list ChatMember.t;
  args : list string
}.

(** A coroutine of bot.py: it runs on the world and returns or raises,
    leaving behind the world as it is at that point. *)
Definition Handler (A : Type) : Type := world -> result A * world.

#[export] Instance handler_ret : MRet Handler := λ A a w, (Ok a, w).

#[export] Instance handler_bind : MBind Handler := λ A B k m w,
  match m w with
  | (Ok a, w') => k a w'
  | (Raise e, w') => (Raise e, w')
  end.

Definition raise {A} (e : exn) : Handler A := λ w, (Raise e, w).

(** A computation that leaves the world alone, and returns or raises. *)
Definition of_result {A} (r : result A) : Handler A := λ w, (r, w).

Definition call (c : Api.call) : Handler unit := λ w,
  (Ok tt, mk_world (data w) (disk w) (calls w ++ [c])).

Definition read {A} (f : bot_data -> A) : Handler A := λ w, (Ok (f (data w)), w).

(** A method call on [bot_data["warnings"]]. *)
Definition on_store {A} (m : WarningStore.method A) : Handler A := λ w,
  let '(a, (self, disk)) := m (warnings (data w), disk w) in
  (Ok a,
   mk_world (mk_bot_data (settings (data w)) self (admin_ids (data w)))
            disk (calls w)).

(** [update.message.<attribute>]: an [AttributeError] when the message is
    [None]. *)
Definition the_message (update : Update.t) : Handler Message.t :=
  match Update.message update with
  | Some message => mret message
  | None => raise AttributeError
  end.

(** [await update.message.reply_text(body)] *)
Definition reply_text (update : Update.t) (body : text) : Handler unit :=
  message ← the_message update;
  call (Api.reply_text (Message.message_id message) body).

Definition _is_admin (user : option User.t) (admin_ids : list Z) : bool :=
  match user with
  | None => false
  | Some user => bool_decide (User.id user ∈ admin_ids)
  end.

Definition _get_admin_ids (context : context) (chat_id : Z) : Handler (list Z) :=
  call (Api.get_chat_administrators chat_id);;
  let admins := chat_administrators context chat_id in
  mret ((λ admin, User.id (ChatMember.user admin)) <$> admins).

(** [update.message is None or update.message.reply_to_message is None] *)
Definition not_a_reply (update : Update.t) : bool :=
  match Update.message update with
  | None => true
  | Some message =>
      match Message.reply_to_message message with
      | None => true
      | Some _ => false
      end
  end.

(** [update.message.reply_to_message], read after [not_a_reply] failed. *)
Definition the_reply (update : Update.t) : Handler Message.t :=
  message ← the_message update;
  match Message.reply_to_message message with
  | Some replied => mret replied
  | None => raise AttributeError
  end.

Definition start (update : Update.t) (context : context) : Handler unit :=
  reply_text update text_start.

Definition help_command (update : Update.t) (context : context) : Handler unit :=
  reply_text update text_help.

Definition rules (update : Update.t) (context : context) : Handler unit :=
  reply_text update text_rules.

Fixpoint welcome_each (update : Update.t) (members : list User.t) : Handler unit :=
  match members with
  | [] => mret tt
  | member :: rest =>
      reply_text update (text_welcome member);;
      welcome_each update rest
  end.

Definition welcome (update : Update.t) (context : context) : Handler unit :=
  match Update.message update with
  | None => mret tt
  | Some message => welcome_each update (Message.new_chat_members message)
  end.

(** Lines 201-207: the duration of a mute. [minutes or 10] takes 10 for
    [None] and for 0. *)
Definition mute_minutes (duration_minutes : option Z) (args : list string) : Z :=
  let minutes :=
    match duration_minutes, args with
    | None, arg :: _ =>
        match Py.int arg with
        | Some n => Some (Z.max 1 n)
        | None => Some 10
        end
    | _, _ => duration_minutes
    end in
  match minutes with
  | None => 10
  | Some m => if (m =? 0)%Z then 10 else m
  end.

(** Line 209, [date + timedelta(minutes=minutes)]: the end of a mute. *)
Definition mute_until (date minutes : Z) : result Z :=
  match Py.timedelta minutes with
  | Raise e => Raise e
  | Ok delta => Py.datetime_add date delta
  end.

Definition mute_user (update : Update.t) (context : context)
    (duration_minutes : option Z) : Handler unit :=
  if not_a_reply update then reply_text update text_mute_needs_reply
  else
    replied ← the_reply update;
    match Message.from_user replied with
    | None => mret tt
    | Some target =>
        let chat_id := Chat.id (Update.effective_chat update) in
        admin_ids ← _get_admin_ids context chat_id;
        if negb (_is_admin (Update.effective_user update) admin_ids)
        then reply_text update text_mute_admins_only
        else
          let minutes := mute_minutes duration_minutes (args context) in
          message ← the_message update;
          until_date ← of_result (mute_until (Message.date message) minutes);
          let permissions := ChatPermissions.muted in
          call (Api.restrict_chat_member chat_id (User.id target) permissions
                  (Some until_date));;
          reply_text update (text_muted target minutes)
    end.

Definition warn (update : Update.t) (context : context) : Handler unit :=
  if not_a_reply update then reply_text update text_warn_needs_reply
  else
    replied ← the_reply update;
    match Message.from_user replied with
    | None => mret tt
    | Some target =>
        let chat_id := Chat.id (Update.effective_chat update) in
        admin_ids ← _get_admin_ids context chat_id;
        if negb (_is_admin (Update.effective_user update) admin_ids)
        then reply_text update text_warn_admins_only
        else
          new_count ← on_store (WarningStore.increment chat_id (User.id target));
          limit ← read (λ d, Settings.warnings_limit (settings d));
          reply_text update (text_warned new_count target);;
          if (limit <=? new_count)%Z then
            mute_user update context (Some 60);;
            on_store (WarningStore.reset chat_id (User.id target));;
            reply_text update (text_auto_muted target)
          else mret tt
    end.

Definition warn_info (update : Update.t) (context : context) : Handler unit :=
  if not_a_reply update then reply_text update text_warns_needs_reply
  else
    replied ← the_reply update;
    match Message.from_user replied with
    | None => mret tt
    | Some target =>
        let chat_id := Chat.id (Update.effective_chat update) in
        count ← on_store (WarningStore.get chat_id (User.id target));
        reply_text update (text_warns target count)
    end.

Definition mute (update : Update.t) (context : context) : Handler unit :=
  mute_user update context None.

Definition unmute (update : Update.t) (context : context) : Handler unit :=
  if not_a_reply update then reply_text update text_unmute_needs_reply
  else
    replied ← the_reply update;
    match Message.from_user replied with
    | None => mret tt
    | Some target =>
        let chat_id := Chat.id (Update.effective_chat update) in
        admin_ids ← _get_admin_ids context chat_id;
        if negb (_is_admin (Update.effective_user update) admin_ids)
        then reply_text update text_unmute_admins_only
        else
          let permissions := ChatPermissions.open in
          call (Api.restrict_chat_member chat_id (User.id target) permissions None);;
          reply_text update (text_unmuted target)
    end.

Definition ban (update : Update.t) (context : context) : Handler unit :=
  if not_a_reply update then reply_text update text_ban_needs_reply
  else
    replied ← the_reply update;
    match Message.from_user replied with
    | None => mret tt
    | Some target =>
        let chat_id := Chat.id (Update.effective_chat update) in
        admin_ids ← _get_admin_ids context chat_id;
        if negb (_is_admin (Update.effective_user update) admin_ids)
        then reply_text update text_ban_admins_only
        else
          call (Api.ban_chat_member chat_id (User.id target));;
          reply_text update (text_banned target)
    end.

Definition lock_chat (update : Update.t) (context : context) : Handler unit :=
  let chat_id := Chat.id (Update.effective_chat update) in
  admin_ids ← _get_admin_ids context chat_id;
  if negb (_is_admin (Update.effective_user update) admin_ids)
  then reply_text update text_lock_admins_only
  else
    let permissions := ChatPermissions.muted in
    call (Api.set_chat_permissions chat_id permissions);;
    reply_text update text_locked.

Definition unlock_chat (update : Update.t) (context : context) : Handler unit :=
  let chat_id := Chat.id (Update.effective_chat update) in
  admin_ids ← _get_admin_ids context chat_id;
  if negb (_is_admin (Update.effective_user update) admin_ids)
  then reply_text update text_unlock_admins_only
  else
    let permissions := ChatPermissions.open in
    call (Api.set_chat_permissions chat_id permissions);;
    reply_text update text_unlocked.

Definition stats (update : Update.t) (context : context) : Handler unit :=
  let chat_id := Chat.id (Update.effective_chat update) in
  warnings ← on_store (WarningStore.get_all chat_id);
  if bool_decide (warnings = ∅) then reply_text update text_no_warnings
  else reply_text update (text_stats (map_to_list warnings)).

Definition reset_warns (update : Update.t) (context : context) : Handler unit :=
  if not_a_reply update then reply_text update text_reset_needs_reply
  else
    replied ← the_reply update;
    match Message.from_user replied with
    | None => mret tt
    | Some target =>
        let chat_id := Chat.id (Update.effective_chat update) in
        admin_ids ← _get_admin_ids context chat_id;
        if negb (_is_admin (Update.effective_user update) admin_ids)
        then reply_text update text_reset_admins_only
        else
          on_store (WarningStore.reset chat_id (User.id target));;
          reply_text update (text_reset_done target)
    end.

Definition pin (update : Update.t) (context : context) : Handler unit :=
  if not_a_reply update then reply_text update text_pin_needs_reply
  else
    let chat_id := Chat.id (Update.effective_chat update) in
    admin_ids ← _get_admin_ids context chat_id;
    if negb (_is_admin (Update.effective_user update) admin_ids)
    then reply_text update text_pin_admins_only
    else
      replied ← the_reply update;
      call (Api.pin (Message.message_id replied));;
      reply_text update text_pinned.

Definition block_links (update : Update.t) (context : context) : Handler unit :=
  match Update.message update with
  | None => mret tt
  | Some message =>
      match Message.from_user message with
      | None => mret tt
      | Some from_user =>
          let chat_id := Chat.id (Update.effective_chat update) in
          settings ← read settings;
          if negb (Settings.admin_only_links settings) then mret tt
          else
            admin_ids ← _get_admin_ids context chat_id;
            if _is_admin (Some from_user) admin_ids then mret tt
            else
              call (Api.delete (Message.message_id message));;
              call (Api.send_message chat_id (text_links_forbidden from_user))
      end
  end.

(** [bot_data.setdefault("admin_ids", {})], then for a new administrator
    [admin_ids.setdefault(chat_id, set()).add(user.id)]. *)
Definition track_admin (update : Update.t) (context : context) : Handler unit :=
  match Update.chat_member update with
  | None => mret tt
  | Some chat_member => λ w,
      let chat_id := Chat.id (ChatMemberUpdated.chat chat_member) in
      let admin_ids := default ∅ (admin_ids (data w)) in
      let new_chat_member := ChatMemberUpdated.new_chat_member chat_member in
      let admin_ids :=
        match ChatMember.status new_chat_member with
        | ADMINISTRATOR =>
            <[chat_id := {[User.id (ChatMember.user new_chat_member)]}
                           ∪ default ∅ (admin_ids !! chat_id)]> admin_ids
        | _ => admin_ids
        end in
      (Ok tt,
       mk_world (mk_bot_data (settings (data w)) (warnings (data w)) (Some admin_ids))
                (disk w) (calls w))
  end.

(** The handlers [build_application] registers. *)
Inductive registered : Type :=
  | on_start | on_help | on_rules | on_warn | on_warns | on_mute | on_unmute
  | on_lock | on_unlock | on_ban | on_resetwarns | on_pin | on_stats
  | on_new_chat_members | on_link | on_my_chat_member.

Definition callback (h : registered) : Update.t -> context -> Handler unit :=
  match h with
  | on_start => start
  | on_help => help_command
  | on_rules => rules
  | on_warn => warn
  | on_warns => warn_info
  | on_mute => mute
  | on_unmute => unmute
  | on_lock => lock_chat
  | on_unlock => unlock_chat
  | on_ban => ban
  | on_resetwarns => reset_warns
  | on_pin => pin
  | on_stats => stats
  | on_new_chat_members => welcome
  | on_link => block_links
  | on_my_chat_member => track_admin
  end.

(** [build_application]: the store is built from the settings' path. *)
Definition build_application (settings : Settings.t) (disk : files)
  : result bot_data :=
  match WarningStore.__init__ (Settings.storage_path settings) disk with
  | Raise e => Raise e
  | Ok store => Ok (mk_bot_data settings store None)
  end.

(** [run_bot] up to [run_polling]: the settings are read from the
    environment and the application is built; the result is the world the
    polling starts in. *)
Definition run_bot (environ : environ) (disk : files) : result world :=
  match Settings.from_env environ with
  | Raise e => Raise e
  | Ok settings =>
      match build_application settings disk with
      | Raise e => Raise e
      | Ok application => Ok (mk_world application disk [])
      end
  end.

End bot.

(** ** Vocabulary of the statements *)

(** A value that is empty or made of whitespace only. *)
Definition blank (value : string) : bool := Py.all_chars Py.isspace value.

(** A variable of the environment that is unset or blank. *)
Definition unset_or_blank (environ : config.environ) (key : string) : bool :=
  match environ !! key with
  | None => true
  | Some value => blank value
  end.

(** A call of a method of the store, and a run of such calls on one store. *)
Inductive operation : Type :=
  | op_increment (chat_id user_id : Z)
  | op_reset (chat_id user_id : Z)
  | op_get (chat_id user_id : Z)
  | op_get_all (chat_id : Z).

Definition perform (o : operation) (st : storage.WarningStore.t * files)
  : storage.WarningStore.t * files :=
  match o with
  | op_increment chat_id user_id => (storage.WarningStore.increment chat_id user_id st).2
  | op_reset chat_id user_id => (storage.WarningStore.reset chat_id user_id st).2
  | op_get chat_id user_id => (storage.WarningStore.get chat_id user_id st).2
  | op_get_all chat_id => (storage.WarningStore.get_all chat_id st).2
  end.

Fixpoint perform_all (ops : list operation) (st : storage.WarningStore.t * files)
  : storage.WarningStore.t * files :=
  match ops with
  | [] => st
  | o :: rest => perform_all rest (perform o st)
  end.

Definition is_increment (chat_id user_id : Z) (o : operation) : bool :=
  match o with
  | op_increment c u => bool_decide (c = chat_id) && bool_decide (u = user_id)
  | _ => false
  end.

Definition is_reset (chat_id user_id : Z) (o : operation) : bool :=
  match o with
  | op_reset c u => bool_decide (c = chat_id) && bool_decide (u = user_id)
  | _ => false
  end.

(** The calls made after the most recent [reset(chat_id, user_id)]; [None]
    when there was no such reset. *)
Fixpoint after_last_reset (chat_id user_id : Z) (ops : list operation)
  : option (list operation) :=
  match ops with
  | [] => None
  | o :: rest =>
      match after_last_reset chat_id user_id rest with
      | Some later => Some later
      | None => if is_reset chat_id user_id o then Some rest else None
      end
  end.

(** The number of [increment(chat_id, user_id)] calls since the most recent
    [reset(chat_id, user_id)], or since the start when there was none. *)
Definition increments_since_reset (chat_id user_id : Z) (ops : list operation) : Z :=
  Z.of_nat (length (filter (λ o, is_increment chat_id user_id o = true)
                           (default ops (after_last_reset chat_id user_id ops)))).

(** The store a [WarningStore(path)] builds when no file is at [path]. *)
Definition empty_store (path : string) : storage.WarningStore.t :=
  storage.WarningStore.mk path ∅.

(** The count a [get] reads. *)
Definition count_of (self : storage.WarningStore.t) (chat_id user_id : Z) : Z :=
  default 0 (storage.WarningStore.users_of (storage.WarningStore._data self)
               (Py.str chat_id) !! Py.str user_id).

(** The format of the persisted file: an object of objects of counts that
    are integers and not negative. *)
Definition is_count (j : json) : bool :=
  match j with JInt n => (0 <=? n)%Z | _ => false end.

Definition is_users (j : json) : bool :=
  match j with
  | JObj members => forallb (λ p : string * json, is_count p.2) members
  | _ => false
  end.

Definition is_document (j : json) : bool :=
  match j with
  | JObj members => forallb (λ p : string * json, is_users p.2) members
  | _ => false
  end.

(** No count of the store is negative. *)
Definition counts_nonneg (d : storage.WarningStore.data) : Prop :=
  forall chat_key users user_key count,
    d !! chat_key = Some users -> users !! user_key = Some count -> 0 <= count.

(** The message a command was sent in: a new message or an edited one. *)
Definition effective_message (update : Update.t) : option Message.t :=
  match Update.message update with
  | Some message => Some message
  | None => Update.edited_message update
  end.

(** The calls that moderate: everything but reading the administrators and
    sending a text. *)
Definition is_moderation (c : Api.call) : bool :=
  match c with
  | Api.restrict_chat_member _ _ _ _ | Api.ban_chat_member _ _
  | Api.set_chat_permissions _ _ | Api.pin _ | Api.delete _ => true
  | Api.get_chat_administrators _ | Api.reply_text _ _ | Api.send_message _ _ => false
  end.

(** The commands that check the invoking user against the administrators. *)
Definition admin_gated : list bot.registered :=
  [bot.on_warn; bot.on_mute; bot.on_unmute; bot.on_ban; bot.on_lock; bot.on_unlock;
   bot.on_resetwarns; bot.on_pin].

(** The commands that act on the replied-to message or its author. *)
Definition needs_target : list bot.registered :=
  [bot.on_warn; bot.on_warns; bot.on_mute; bot.on_unmute; bot.on_ban;
   bot.on_resetwarns; bot.on_pin].

(** The text that tells a user who is no administrator so. *)
Definition rejection (h : bot.registered) : option text :=
  match h with
  | bot.on_warn => Some text_warn_admins_only
  | bot.on_mute => Some text_mute_admins_only
  | bot.on_unmute => Some text_unmute_admins_only
  | bot.on_ban => Some text_ban_admins_only
  | bot.on_lock => Some text_lock_admins_only
  | bot.on_unlock => Some text_unlock_admins_only
  | bot.on_resetwarns => Some text_reset_admins_only
  | bot.on_pin => Some text_pin_admins_only
  | _ => None
  end.

(** The text that asks to send the command as a reply. *)
Definition guidance (h : bot.registered) : option text :=
  match h with
  | bot.on_warn => Some text_warn_needs_reply
  | bot.on_warns => Some text_warns_needs_reply
  | bot.on_mute => Some text_mute_needs_reply
  | bot.on_unmute => Some text_unmute_needs_reply
  | bot.on_ban => Some text_ban_needs_reply
  | bot.on_resetwarns => Some text_reset_needs_reply
  | bot.on_pin => Some text_pin_needs_reply
  | _ => None
  end.

(** The ids [_get_admin_ids] returns for the chat of the update. *)
Definition fetched_admin_ids (update : Update.t) (context : bot.context) : list Z :=
  (λ admin, User.id (ChatMember.user admin))
    <$> bot.chat_administrators context (Chat.id (Update.effective_chat update)).

(** The invoking user is in the fetched administrator list. *)
Definition invoker_is_admin (update : Update.t) (context : bot.context) : bool :=
  bot._is_admin (Update.effective_user update) (fetched_admin_ids update context).

(** The author of the replied-to message, when the update is a new message
    that replies to a message with a known author. *)
Definition target_of (update : Update.t) : option User.t :=
  message ← Update.message update;
  replied ← Message.reply_to_message message;
  Message.from_user replied.

(** The update lets the command reach its administrator check and answer:
    it carries a new message, which for [pin] is a reply and for the commands
    on a user is a reply to a message with a known author. *)
Definition reaches_admin_check (h : bot.registered) (update : Update.t) : bool :=
  match h with
  | bot.on_lock | bot.on_unlock => bool_decide (is_Some (Update.message update))
  | bot.on_pin => negb (bot.not_a_reply update)
  | _ => bool_decide (is_Some (target_of update))
  end.

(** A rejection text of the command is among the calls. *)
Definition sends_rejection (h : bot.registered) (calls : list Api.call) : Prop :=
  exists message_id body,
    rejection h = Some body /\ Api.reply_text message_id body ∈ calls.

(** What of a world can be seen from outside a handler run: everything but
    the [admin_ids] entry of [bot_data]. *)
Definition observable (w : bot.world)
  : config.Settings.t * storage.WarningStore.t * files * list Api.call :=
  (bot.settings (bot.data w), bot.warnings (bot.data w), bot.disk w, bot.calls w).

(** The world with another [admin_ids] entry. *)
Definition with_admin_ids (ids : option (gmap Z (gset Z))) (w : bot.world) : bot.world :=
  bot.mk_world
    (bot.mk_bot_data (bot.settings (bot.data w)) (bot.warnings (bot.data w)) ids)
    (bot.disk w) (bot.calls w).

(** A coroutine whose result and observable effects do not depend on the
    [admin_ids] entry. *)
Definition ignores_admin_ids {A} (m : bot.Handler A) : Prop :=
  forall w1 w2, observable w1 = observable w2 ->
    (m w1).1 = (m w2).1 /\ observable (m w1).2 = observable (m w2).2.

(** The world after some more calls. *)
Definition after_calls (w : bot.world) (new : list Api.call) : bot.world :=
  bot.mk_world (bot.data w) (bot.disk w) (bot.calls w ++ new).

(** Sample objects: an administrator, a member, a command sent as a reply to
    the member's message, the same command sent plainly, and sent by editing
    a message. *)
Definition sample_admin : User.t := User.mk 1001.
Definition sample_member : User.t := User.mk 2002.
Definition sample_chat : Chat.t := Chat.mk (-100500).

Definition member_message : Message.t :=
  Message.mk 40 (Date.mk 1700000000 eq_refl) (Some sample_member) None [].

Definition command_message (sender : User.t) (reply_to : option Message.t) : Message.t :=
  Message.mk 41 (Date.mk 1700000060 eq_refl) (Some sender) reply_to [].

Definition reply_update (sender : User.t) : Update.t :=
  Update.mk (Some (command_message sender (Some member_message))) None
            sample_chat (Some sender) None.

Definition plain_update (sender : User.t) : Update.t :=
  Update.mk (Some (command_message sender None)) None sample_chat (Some sender) None.

Definition edited_update (sender : User.t) : Update.t :=
  Update.mk None (Some (command_message sender None)) sample_chat (Some sender) None.

Definition sample_context (args : list string) : bot.context :=
  bot.mk_context (λ _, [ChatMember.mk sample_admin ADMINISTRATOR]) args.

Definition sample_world (limit : Z) : bot.world :=
  bot.mk_world
    (bot.mk_bot_data (config.Settings.mk "123:abc" limit "./warnings.json" true)
                     (empty_store "./warnings.json") None)
    ∅ [].

(** The sample world after one, two and three warns of the member by the
    administrator, with limit 3. *)
Definition warned_once : bot.world :=
  (bot.warn (reply_update sample_admin) (sample_context []) (sample_world 3)).2.

Definition warned_twice : bot.world :=
  (bot.warn (reply_update sample_admin) (sample_context []) warned_once).2.

Definition warned_thrice : bot.world :=
  (bot.warn (reply_update sample_admin) (sample_context []) warned_twice).2.

(** A platform that agrees with the sample one on the sample chat only. *)
Definition other_context : bot.context :=
  bot.mk_context
    (λ chat_id, if bool_decide (chat_id = -100500)
                then [ChatMember.mk sample_admin ADMINISTRATOR] else [])
    [].

(** An environment with a token and a [WARNINGS_LIMIT] of one space. *)
Definition blank_limit_environ : config.environ :=
  {[ "TELEGRAM_BOT_TOKEN" := "123:abc"; "WARNINGS_LIMIT" := " " ]}.

(** An environment whose token is two spaces. *)
Definition blank_token_environ : config.environ :=
  {[ "TELEGRAM_BOT_TOKEN" := "  " ]}.

(** A store with two chats, one of them emptied by a reset. *)
Definition sample_store : storage.WarningStore.t * files :=
  perform_all [op_increment (-100) 5; op_increment 8 9; op_reset 8 9]
              (empty_store "warnings.json", ∅).

(** The calls of a [/warn] that records warning number [new_count]. *)
Definition warned_calls (update : Update.t) (message : Message.t) (target : User.t)
    (new_count : Z) : list Api.call :=
  [Api.get_chat_administrators (Chat.id (Update.effective_chat update));
   Api.reply_text (Message.message_id message) (text_warned new_count target)].

(** The calls of the mute that follows a warning at the limit: the target
    may not send messages until 60 minutes after the command. *)
Definition auto_mute_calls (update : Update.t) (message : Message.t) (target : User.t)
  : list Api.call :=
  [Api.get_chat_administrators (Chat.id (Update.effective_chat update));
   Api.restrict_chat_member (Chat.id (Update.effective_chat update)) (User.id target)
     ChatPermissions.muted (Some (Message.date message + 60 * 60));
   Api.reply_text (Message.message_id message) (text_muted target 60);
   Api.reply_text (Message.message_id message) (text_auto_muted target)].

(** The calls of a [/mute] for [minutes] minutes: the target may not send
    messages until that long after the command. *)
Definition mute_calls (update : Update.t) (message : Message.t) (target : User.t)
    (minutes : Z) : list Api.call :=
  [Api.get_chat_administrators (Chat.id (Update.effective_chat update));
   Api.restrict_chat_member (Chat.id (Update.effective_chat update)) (User.id target)
     ChatPermissions.muted (Some (Message.date message + 60 * minutes));
   Api.reply_text (Message.message_id message) (text_muted target minutes)].

(** Strings outside ASCII: the no-break space U+00A0, which is whitespace,
    and the digits five and two of extended Arabic-Indic, U+06F5 and U+06F2. *)
Definition no_break_space : string := String "194" (String "160" "").
Definition extended_arabic_five : string := String "219" (String "181" "").

(** The stored count of the target of an update, in the chat of the update. *)
Definition target_count (update : Update.t) (target : User.t) (w : bot.world) : Z :=
  count_of (bot.warnings (bot.data w)) (Chat.id (Update.effective_chat update))
           (User.id target).

(** ** Vocabulary of the further properties *)

(** A fresh [WarningStore] on the path of the store, built from the disk as
    it is, holds the same users and counts for every chat key. *)
Definition reloads_same (st : storage.WarningStore.t * files) : Prop :=
  exists fresh,
    storage.WarningStore.__init__ (storage.WarningStore.path st.1) st.2 = Ok fresh
    /\ forall chat_key,
         storage.WarningStore.users_of (storage.WarningStore._data fresh) chat_key
         = storage.WarningStore.users_of (storage.WarningStore._data st.1) chat_key.


(** A document [_load] goes through without raising: an object of objects of
    values [int] converts. *)
Definition count_loads (j : json) : bool :=
  match storage.int_of_json j with Ok _ => true | Raise _ => false end.

Definition users_load (j : json) : bool :=
  match j with
  | JObj members => forallb (λ p : string * json, count_loads p.2) members
  | _ => false
  end.

Definition document_loads (j : json) : bool :=
  match j with
  | JObj members => forallb (λ p : string * json, users_load p.2) members
  | _ => false
  end.




(** The commands that call a method of the store that can write. *)
Definition writes_store (h : bot.registered) : bool :=
  match h with
  | bot.on_warn | bot.on_resetwarns => true
  | _ => false
  end.

(** A call is addressed to the update: to its chat, to its message, to the
    message it replies to, or to the author of that message. *)
Definition addressed_to (update : Update.t) (c : Api.call) : Prop :=
  match c with
  | Api.get_chat_administrators chat_id | Api.send_message chat_id _
  | Api.set_chat_permissions chat_id _ =>
      chat_id = Chat.id (Update.effective_chat update)
  | Api.restrict_chat_member chat_id user_id _ _ | Api.ban_chat_member chat_id user_id =>
      chat_id = Chat.id (Update.effective_chat update)
      /\ User.id <$> target_of update = Some user_id
  | Api.reply_text message_id _ | Api.delete message_id =>
      Message.message_id <$> Update.message update = Some message_id
  | Api.pin message_id =>
      Message.message_id <$> (Update.message update ≫= Message.reply_to_message)
      = Some message_id
  end.



(** The store of a world with its disk. *)
Definition store_of (w : bot.world) : storage.WarningStore.t * files :=
  (bot.warnings (bot.data w), bot.disk w).

(** A call that mutes carries an end at least one minute after [date]. *)
Definition mute_ends_after (date : Z) (c : Api.call) : Prop :=
  match c with
  | Api.restrict_chat_member _ _ permissions until_date =>
      permissions = ChatPermissions.muted ->
      exists minutes, 1 <= minutes /\ until_date = Some (date + 60 * minutes)
  | _ => True
  end.

(** The ids the [admin_ids] entry of a world holds for a chat. *)
Definition tracked (w : bot.world) (chat_id : Z) : gset Z :=
  default ∅ (default ∅ (bot.admin_ids (bot.data w)) !! chat_id).

(** Sample updates: two members join; the member is promoted; the
    administrator is demoted. *)
Definition join_update : Update.t :=
  Update.mk
    (Some (Message.mk 50 (Date.mk 1700000100 eq_refl) None None
             [sample_member; User.mk 3003]))
    None sample_chat None None.

Definition promotion_update : Update.t :=
  Update.mk None None sample_chat (Some sample_admin)
            (Some (ChatMemberUpdated.mk sample_chat
                     (ChatMember.mk sample_member ADMINISTRATOR))).

Definition demotion_update : Update.t :=
  Update.mk None None sample_chat (Some sample_admin)
            (Some (ChatMemberUpdated.mk sample_chat
                     (ChatMember.mk sample_member MEMBER))).

(** A link posted by a user, and settings that let every user post links. *)
Definition link_update (sender : User.t) : Update.t :=
  Update.mk
    (Some (Message.mk 60 (Date.mk 1700000200 eq_refl) (Some sender) None []))
    None sample_chat (Some sender) None.

Definition links_allowed_world : bot.world :=
  bot.mk_world
    (bot.mk_bot_data (config.Settings.mk "123:abc" 3 "./warnings.json" false)
                     (empty_store "./warnings.json") None)
    ∅ [].

(** An environment with the token only. *)
Definition token_environ : config.environ := {[ "TELEGRAM_BOT_TOKEN" := "123:abc" ]}.


(** A call that needs no administrator: it does not moderate, or it is the
    deletion of a link by [block_links]. *)
Definition open_to_all (h : bot.registered) (c : Api.call) : Prop :=
  is_moderation c = false \/ (h = bot.on_link /\ exists message_id, c = Api.delete message_id).

(** * Properties *)

(** ** Python built-ins *)

Section strip.

Context {A : Type}.
Implicit Types (p q : A -> bool) (l : list A).

Lemma lstrip_with_all p l : forallb p l = true -> Py.lstrip_with p l = [].
Proof.
  induction l as [|c l IH]; simpl; [done|].
  intros [Hc Hl]%andb_prop. rewrite Hc. auto.
Qed.

Lemma lstrip_with_empty p l : Py.lstrip_with p l = [] -> forallb p l = true.
Proof.
  induction l as [|c l IH]; simpl; [done|].
  destruct (p c); [auto | discriminate].
Qed.

Lemma rstrip_with_empty p l : Py.rstrip_with p l = [] -> forallb p l = true.
Proof.
  induction l as [|c l IH]; simpl; [done|].
  destruct (Py.rstrip_with p l); [|discriminate].
  destruct (p c); [auto | discriminate].
Qed.

Lemma forallb_lstrip p q l :
  forallb p l = true -> forallb p (Py.lstrip_with q l) = true.
Proof.
  induction l as [|c l IH]; simpl; [done|].
  intros H. destruct (q c); [|done].
  apply andb_prop in H as [_ Hl]. auto.
Qed.

Lemma forallb_rstrip p q l :
  forallb p l = true -> forallb p (Py.rstrip_with q l) = true.
Proof.
  induction l as [|c l IH]; simpl; [done|].
  intros [Hc Hl]%andb_prop. specialize (IH Hl).
  destruct (Py.rstrip_with q l) as [|c' r].
  - destruct (q c); simpl; [done | by rewrite Hc].
  - change (forallb p (c :: c' :: r) = true).
    simpl in *. by rewrite Hc.
Qed.

Lemma forallb_strip p q l :
  forallb p l = true -> forallb p (Py.strip_with q l) = true.
Proof. intros H. by apply forallb_rstrip, forallb_lstrip. Qed.

Lemma strip_with_blank p l : Py.strip_with p l = [] <-> forallb p l = true.
Proof.
  unfold Py.strip_with. split.
  - intros H%rstrip_with_empty.
    induction l as [|c l IH]; simpl in *; [done|].
    destruct (p c) eqn:Hc; [auto|].
    simpl in H. by rewrite Hc in H.
  - intros H. by rewrite lstrip_with_all.
Qed.

End strip.

Lemma forallb_fmap {A B} (f : A -> B) (p : B -> bool) (l : list A) :
  forallb p (f <$> l) = forallb (λ a, p (f a)) l.
Proof. induction l as [|a l IH]; cbn; [done | by rewrite IH]. Qed.

(** Every character of a string is made of at least one byte. *)
Lemma chars_bytes (s : string) :
  forallb (λ c : N * string, negb (String.eqb c.2 "")) (Py.chars s) = true.
Proof.
  remember (String.length s) as n eqn:Hn.
  revert s Hn. induction (lt_wf n) as [n _ IH]. intros s ->.
  assert (forall s', (String.length s' < String.length s)%nat ->
            forallb (λ c : N * string, negb (String.eqb c.2 "")) (Py.chars s') = true)
    as Hrec by (intros s' Hlt; by eapply IH).
  clear IH. destruct s as [|b0 s1]; [done|].
  cbn [Py.chars].
  repeat match goal with
    | |- context [if ?b then _ else _] => destruct b
    | |- context [match ?s' with EmptyString => _ | String _ _ => _ end] =>
        destruct s'
    end;
    cbn [forallb snd negb String.eqb Py.escaped andb];
    try (apply Hrec; cbn; lia); done.
Qed.

Lemma join_empty (l : list (N * string)) :
  forallb (λ c : N * string, negb (String.eqb c.2 "")) l = true ->
  Py.join l = "" <-> l = [].
Proof.
  destruct l as [|[c [|b bytes]] l]; cbn; [done | done |].
  intros _. split; discriminate.
Qed.

Lemma strip_blank (value : string) : Py.strip value = "" <-> blank value = true.
Proof.
  unfold Py.strip, blank, Py.all_chars, Py.points.
  rewrite join_empty by apply forallb_strip, chars_bytes.
  rewrite strip_with_blank. by rewrite forallb_fmap.
Qed.

Lemma eqb_strip_blank (value : string) :
  String.eqb (Py.strip value) "" = blank value.
Proof.
  destruct (blank value) eqn:Hb.
  - apply String.eqb_eq, strip_blank, Hb.
  - apply String.eqb_neq. intros H%strip_blank. congruence.
Qed.



(** ** group_bot/config.py *)

Import config.

Lemma _env_unset_or_blank (environ : environ) (key : string) (default : option string) :
  _env environ key default
  = if unset_or_blank environ key then default else environ !! key.
Proof.
  unfold _env, unset_or_blank.
  destruct (environ !! key) as [value|]; [|done].
  by rewrite eqb_strip_blank.
Qed.

Lemma _env_token (environ : environ) :
  unset_or_blank environ "TELEGRAM_BOT_TOKEN" = false ->
  exists c token, _env environ "TELEGRAM_BOT_TOKEN" None = Some (String c token)
                  /\ environ !! "TELEGRAM_BOT_TOKEN" = Some (String c token).
Proof.
  intros H. rewrite _env_unset_or_blank, H.
  unfold unset_or_blank in H.
  destruct (environ !! "TELEGRAM_BOT_TOKEN") as [[|c token]|]; try done.
  by exists c, token.
Qed.

(** The limit [from_env] reads: the variable, or 3 when it is unset or blank. *)
Lemma limit_raw_spec (environ : environ) :
  default "3" (_env environ "WARNINGS_LIMIT" (Some "3"))
  = if unset_or_blank environ "WARNINGS_LIMIT" then "3"
    else default "3" (environ !! "WARNINGS_LIMIT").
Proof. rewrite _env_unset_or_blank. by destruct (unset_or_blank _ _). Qed.

(** C7, as stated, fails: with the token set, a [WARNINGS_LIMIT] of one space
    is a string [int] rejects, and [from_env] returns settings with the
    default limit; and a token of two spaces, which is set and not empty, makes
    [from_env] raise. *)
Lemma from_env_blank_limit_returns :
  blank_limit_environ !! "WARNINGS_LIMIT" = Some " "
  /\ Py.int " " = None
  /\ Settings.from_env blank_limit_environ
     = Ok (Settings.mk "123:abc" 3 "./warnings.json" true)
  /\ Settings.from_env blank_token_environ = Raise Settings.missing_token.
Proof. vm_compute. done. Qed.

(** C7, amended: [from_env] raises when the token is unset or blank (empty or
    whitespace only), and when [WARNINGS_LIMIT] is set to a string that is not
    blank and that [int] rejects; otherwise it returns settings with the
    token, the limit [max(1, int(WARNINGS_LIMIT))], and the defaults 3,
    ./warnings.json and true for the variables that are unset or blank. *)
Theorem from_env_outcome (environ : environ) :
  (unset_or_blank environ "TELEGRAM_BOT_TOKEN" = true ->
     Settings.from_env environ = Raise Settings.missing_token)
  /\ (forall raw,
        unset_or_blank environ "TELEGRAM_BOT_TOKEN" = false ->
        environ !! "WARNINGS_LIMIT" = Some raw -> blank raw = false ->
        Py.int raw = None ->
        Settings.from_env environ = Raise Settings.bad_limit)
  /\ (forall token n,
        environ !! "TELEGRAM_BOT_TOKEN" = Some token -> blank token = false ->
        (if unset_or_blank environ "WARNINGS_LIMIT" then Some 3
         else Py.int (default "3" (environ !! "WARNINGS_LIMIT"))) = Some n ->
        exists st,
          Settings.from_env environ = Ok st
          /\ Settings.bot_token st = token
          /\ Settings.warnings_limit st = Z.max 1 n
          /\ (unset_or_blank environ "WARNINGS_LIMIT" = true ->
                Settings.warnings_limit st = 3)
          /\ (unset_or_blank environ "WARNINGS_STORAGE" = true ->
                Settings.storage_path st = "./warnings.json")
          /\ (unset_or_blank environ "ADMIN_ONLY_LINKS" = true ->
                Settings.admin_only_links st = true)).
Proof.
  split; [|split].
  - intros H. unfold Settings.from_env. by rewrite _env_unset_or_blank, H.
  - intros raw Htok Hraw Hblank Hint.
    destruct (_env_token _ Htok) as (c & token & Henv & _).
    unfold Settings.from_env. rewrite Henv, limit_raw_spec.
    unfold unset_or_blank. rewrite Hraw, Hblank. simpl. by rewrite Hint.
  - intros token n Htok Hblank Hn.
    assert (unset_or_blank environ "TELEGRAM_BOT_TOKEN" = false) as Hset
      by (unfold unset_or_blank; by rewrite Htok).
    destruct (_env_token _ Hset) as (c & token' & Henv & Heq).
    rewrite Htok in Heq. injection Heq as ->.
    assert (Py.int (if unset_or_blank environ "WARNINGS_LIMIT" then "3"
                    else default "3" (environ !! "WARNINGS_LIMIT")) = Some n) as Hint.
    { destruct (unset_or_blank environ "WARNINGS_LIMIT"); [|done].
      injection Hn as <-. reflexivity. }
    eexists. split.
    { unfold Settings.from_env. rewrite Henv, limit_raw_spec, Hint. reflexivity. }
    simpl.
    repeat split.
    + intros H. rewrite H in Hn. by injection Hn as <-.
    + intros H. by rewrite _env_unset_or_blank, H.
    + intros H. by rewrite _env_unset_or_blank, H.
Qed.

(** C7: the amended statement at the empty environment, at a token that is
    a no-break space, at a limit that is no integer, at an environment with
    only the token, and at a limit written with a digit that is not ASCII. *)
Lemma from_env_outcome_witness :
  Settings.from_env ∅ = Raise Settings.missing_token
  /\ Settings.from_env {[ "TELEGRAM_BOT_TOKEN" := no_break_space ]}
     = Raise Settings.missing_token
  /\ Settings.from_env {[ "TELEGRAM_BOT_TOKEN" := "t"; "WARNINGS_LIMIT" := "three" ]}
     = Raise Settings.bad_limit
  /\ (exists st,
        Settings.from_env {[ "TELEGRAM_BOT_TOKEN" := "t" ]} = Ok st
        /\ Settings.bot_token st = "t"
        /\ Settings.warnings_limit st = 3)
  /\ (exists st,
        Settings.from_env
          {[ "TELEGRAM_BOT_TOKEN" := "t"; "WARNINGS_LIMIT" := extended_arabic_five ]}
        = Ok st
        /\ Settings.warnings_limit st = 5).
Proof.
  split; [|split; [|split; [|split]]].
  - apply (proj1 (from_env_outcome ∅)). reflexivity.
  - apply (proj1 (from_env_outcome {[ "TELEGRAM_BOT_TOKEN" := no_break_space ]})).
    by vm_compute.
  - apply (proj1 (proj2 (from_env_outcome
             {[ "TELEGRAM_BOT_TOKEN" := "t"; "WARNINGS_LIMIT" := "three" ]})) "three");
      by vm_compute.
  - destruct (proj2 (proj2 (from_env_outcome {[ "TELEGRAM_BOT_TOKEN" := "t" ]}))
                "t" 3) as (st & H1 & H2 & H3 & _); [by vm_compute ..|].
    exists st. auto.
  - destruct (proj2 (proj2 (from_env_outcome
                {[ "TELEGRAM_BOT_TOKEN" := "t";
                   "WARNINGS_LIMIT" := extended_arabic_five ]}))
                "t" 5) as (st & H1 & _ & H3 & _); [by vm_compute ..|].
    exists st. auto.
Defined.




(** ** group_bot/storage.py *)

Import storage.

Section store.

Implicit Types (d : WarningStore.data) (self : WarningStore.t) (disk : files).

Lemma users_of_setitem d chat_key user_key count chat_key' :
  WarningStore.users_of (WarningStore.setitem d chat_key user_key count) chat_key'
  = if decide (chat_key = chat_key')
    then <[user_key := count]> (WarningStore.users_of d chat_key)
    else WarningStore.users_of d chat_key'.
Proof.
  unfold WarningStore.users_of at 1, WarningStore.setitem.
  case_decide as H.
  - subst. by rewrite lookup_insert_eq.
  - by rewrite lookup_insert_ne.
Qed.

Lemma get_count self disk chat_id user_id :
  WarningStore.get chat_id user_id (self, disk)
  = (count_of self chat_id user_id, (self, disk)).
Proof. reflexivity. Qed.

Lemma increment_count self disk chat_id user_id :
  (WarningStore.increment chat_id user_id (self, disk)).1
  = count_of self chat_id user_id + 1
  /\ count_of (WarningStore.increment chat_id user_id (self, disk)).2.1
              chat_id user_id
     = count_of self chat_id user_id + 1.
Proof.
  unfold WarningStore.increment, count_of. simpl.
  rewrite users_of_setitem. case_decide; [|done].
  by rewrite lookup_insert_eq.
Qed.

Lemma increment_count_other self disk chat_id user_id chat_id' user_id' :
  (chat_id, user_id) <> (chat_id', user_id') ->
  count_of (WarningStore.increment chat_id' user_id' (self, disk)).2.1
           chat_id user_id
  = count_of self chat_id user_id.
Proof.
  intros Hne. unfold WarningStore.increment, count_of. simpl.
  rewrite users_of_setitem. case_decide as Hc; [|done].
  apply (inj Py.str) in Hc as ->.
  rewrite lookup_insert_ne; [done|].
  intros Hu. apply (inj Py.str) in Hu as ->. done.
Qed.

Lemma reset_count self disk chat_id user_id :
  count_of (WarningStore.reset chat_id user_id (self, disk)).2.1 chat_id user_id = 0.
Proof.
  unfold WarningStore.reset, count_of.
  destruct (WarningStore.users_of (WarningStore._data self) _ !! _) eqn:H; simpl.
  - unfold WarningStore.users_of at 1.
    rewrite lookup_insert_eq. simpl. by rewrite lookup_delete_eq.
  - by rewrite H.
Qed.

Lemma reset_count_other self disk chat_id user_id chat_id' user_id' :
  (chat_id, user_id) <> (chat_id', user_id') ->
  count_of (WarningStore.reset chat_id' user_id' (self, disk)).2.1 chat_id user_id
  = count_of self chat_id user_id.
Proof.
  intros Hne. unfold WarningStore.reset, count_of.
  destruct (WarningStore.users_of (WarningStore._data self) (Py.str chat_id') !! _)
    eqn:H; simpl; [|done].
  unfold WarningStore.users_of at 1.
  destruct (decide (Py.str chat_id' = Py.str chat_id)) as [Hc|Hc].
  - rewrite Hc, lookup_insert_eq. simpl.
    apply (inj Py.str) in Hc as ->.
    rewrite lookup_delete_ne; [done|].
    intros Hu. apply (inj Py.str) in Hu as ->. done.
  - by rewrite lookup_insert_ne.
Qed.

End store.

Lemma perform_count (o : operation) (st : WarningStore.t * files) (chat_id user_id : Z) :
  count_of (perform o st).1 chat_id user_id
  = if is_reset chat_id user_id o then 0
    else if is_increment chat_id user_id o
         then count_of st.1 chat_id user_id + 1
         else count_of st.1 chat_id user_id.
Proof.
  destruct st as [self disk].
  destruct o as [c u|c u| |]; cbn [perform is_reset is_increment fst snd]; try done.
  - destruct (decide ((chat_id, user_id) = (c, u))) as [[= -> ->]|Hne].
    + rewrite !bool_decide_eq_true_2 by done. cbn [andb].
      apply increment_count.
    + rewrite increment_count_other by done.
      destruct (bool_decide (c = chat_id)) eqn:Hc, (bool_decide (u = user_id)) eqn:Hu;
        try done.
      apply bool_decide_eq_true_1 in Hc, Hu. congruence.
  - destruct (decide ((chat_id, user_id) = (c, u))) as [[= -> ->]|Hne].
    + rewrite !bool_decide_eq_true_2 by done. cbn [andb].
      apply reset_count.
    + rewrite reset_count_other by done.
      destruct (bool_decide (c = chat_id)) eqn:Hc, (bool_decide (u = user_id)) eqn:Hu;
        try done.
      apply bool_decide_eq_true_1 in Hc, Hu. congruence.
Qed.

Lemma count_after_run (ops : list operation) (st : WarningStore.t * files)
    (chat_id user_id : Z) :
  count_of (perform_all ops st).1 chat_id user_id
  = match after_last_reset chat_id user_id ops with
    | Some later =>
        Z.of_nat (length (filter (λ o, is_increment chat_id user_id o = true) later))
    | None =>
        count_of st.1 chat_id user_id
        + Z.of_nat (length (filter (λ o, is_increment chat_id user_id o = true) ops))
    end.
Proof.
  revert st. induction ops as [|o rest IH]; intros st; simpl.
  - lia.
  - rewrite IH.
    destruct (after_last_reset chat_id user_id rest) as [later|]; [done|].
    rewrite perform_count.
    destruct (is_reset chat_id user_id o) eqn:Hr; [lia|].
    rewrite filter_cons.
    destruct (is_increment chat_id user_id o) eqn:Hi.
    + rewrite decide_True by done. simpl length. lia.
    + rewrite decide_False by done. lia.
Qed.

(** C1: on a store built empty, after any run of store calls [get(chat,
    user)] is the number of [increment(chat, user)] calls since the most
    recent [reset(chat, user)], or since construction; on any store an
    [increment] returns the count read before plus 1 (0 when absent) and
    stores it, and a [get] right after a [reset] returns 0. *)
Theorem get_counts_increments_since_reset :
  (forall (path : string) (disk : files) (ops : list operation) (chat_id user_id : Z),
      (WarningStore.get chat_id user_id
         (perform_all ops (empty_store path, disk))).1
      = increments_since_reset chat_id user_id ops)
  /\ (forall (st : WarningStore.t * files) (chat_id user_id : Z),
        let before := (WarningStore.get chat_id user_id st).1 in
        let after := WarningStore.increment chat_id user_id st in
        after.1 = before + 1
        /\ (WarningStore.get chat_id user_id after.2).1 = before + 1
        /\ before
           = default 0 (default ∅ (WarningStore._data st.1 !! Py.str chat_id)
                          !! Py.str user_id))
  /\ (forall (st : WarningStore.t * files) (chat_id user_id : Z),
        (WarningStore.get chat_id user_id
           (WarningStore.reset chat_id user_id st).2).1 = 0).
Proof.
  split; [|split].
  - intros path disk ops chat_id user_id.
    destruct (perform_all ops (empty_store path, disk)) as [self disk'] eqn:Hrun.
    rewrite get_count. simpl.
    change self with (self, disk').1. rewrite <- Hrun, count_after_run.
    unfold increments_since_reset.
    destruct (after_last_reset chat_id user_id ops); simpl; [done|].
    unfold count_of, WarningStore.users_of. simpl.
    rewrite !lookup_empty. simpl. rewrite lookup_empty. simpl. lia.
  - intros [self disk] chat_id user_id. cbv zeta.
    destruct (increment_count self disk chat_id user_id) as [H1 H2].
    rewrite get_count. cbn [fst]. split; [done|]. split; [|done].
    destruct (WarningStore.increment chat_id user_id (self, disk)) as [n [self' disk']].
    cbn [snd]. rewrite get_count. done.
  - intros [self disk] chat_id user_id.
    pose proof (reset_count self disk chat_id user_id) as H.
    destruct (WarningStore.reset chat_id user_id (self, disk)) as [[] [self' disk']].
    cbn [snd]. rewrite get_count. done.
Qed.

Example three_warnings_then_reset :
  let ops := [op_increment 7 1; op_increment 7 2; op_increment 7 1; op_reset 7 2;
              op_get_all 7; op_increment 7 1] in
  count_of (perform_all ops (empty_store "w.json", ∅)).1 7 1 = 3
  /\ count_of (perform_all ops (empty_store "w.json", ∅)).1 7 2 = 0.
Proof. vm_compute. done. Qed.

(** C8: [get] and [get_all] return the object and the disk as they found
    them, their result does not depend on the disk, and it is read off the
    map with 0 or the empty dict for an absent key. *)
Theorem get_and_get_all_are_pure_reads
    (self : WarningStore.t) (disk : files) (chat_id user_id : Z) :
  (WarningStore.get chat_id user_id (self, disk)).2 = (self, disk)
  /\ (WarningStore.get_all chat_id (self, disk)).2 = (self, disk)
  /\ (forall disk' : files,
        (WarningStore.get chat_id user_id (self, disk')).1
        = (WarningStore.get chat_id user_id (self, disk)).1
        /\ (WarningStore.get_all chat_id (self, disk')).1
           = (WarningStore.get_all chat_id (self, disk)).1)
  /\ (WarningStore.get chat_id user_id (self, disk)).1
     = match WarningStore._data self !! Py.str chat_id with
       | None => 0
       | Some users => default 0 (users !! Py.str user_id)
       end
  /\ (WarningStore.get_all chat_id (self, disk)).1
     = match WarningStore._data self !! Py.str chat_id with
       | None => ∅
       | Some users => users
       end.
Proof.
  repeat split; cbn; unfold WarningStore.users_of;
    by destruct (WarningStore._data self !! Py.str chat_id).
Qed.

(** *** Saving and loading *)

Section roundtrip.

Implicit Types (d : WarningStore.data) (users : gmap string Z).








Lemma setitem_nonneg d chat_key user_key count :
  counts_nonneg d -> 0 <= count ->
  counts_nonneg (WarningStore.setitem d chat_key user_key count).
Proof.
  intros Hd Hc c users u n. unfold WarningStore.setitem.
  destruct (decide (chat_key = c)) as [->|Hne].
  - rewrite lookup_insert_eq. intros [= <-].
    destruct (decide (user_key = u)) as [->|Hneu].
    + rewrite lookup_insert_eq. by intros [= <-].
    + rewrite lookup_insert_ne by done. unfold WarningStore.users_of.
      destruct (d !! c) as [users|] eqn:Hl; simpl.
      * intros Hu. by eapply Hd.
      * by rewrite lookup_empty.
  - rewrite lookup_insert_ne by done. intros Hl Hu. by eapply Hd.
Qed.



Lemma load_users_nonneg d chat_id (l : list (string * json)) d' :
  forallb (λ p : string * json, is_count p.2) l = true ->
  counts_nonneg d ->
  WarningStore.load_users d chat_id l = Ok d' -> counts_nonneg d'.
Proof.
  revert d. induction l as [|[u j] l IH]; intros d Hl Hd; simpl.
  - by intros [= <-].
  - simpl in Hl. apply andb_prop in Hl as [Hj Hl].
    destruct j as [| |n| | |]; try done. simpl in *.
    apply IH; [done|]. apply setitem_nonneg; [done|lia].
Qed.

Lemma load_chats_nonneg d (l : list (string * json)) d' :
  forallb (λ p : string * json, is_users p.2) l = true ->
  counts_nonneg d ->
  WarningStore.load_chats d l = Ok d' -> counts_nonneg d'.
Proof.
  revert d. induction l as [|[c j] l IH]; intros d Hl Hd; simpl.
  - by intros [= <-].
  - simpl in Hl. apply andb_prop in Hl as [Hj Hl].
    destruct j as [| | | | |members]; try done. simpl in *.
    destruct (WarningStore.load_users d c members) as [d1|] eqn:Hload; [|done].
    apply IH; [done|]. by eapply load_users_nonneg.
Qed.

(** A store built by [WarningStore(path)] from no file, or from a file in
    the format, has no negative count. *)
Lemma init_nonneg (path : string) (disk : files) (self : WarningStore.t) :
  (forall doc, disk !! path = Some doc -> is_document doc = true) ->
  WarningStore.__init__ path disk = Ok self ->
  counts_nonneg (WarningStore._data self).
Proof.
  unfold WarningStore.__init__, WarningStore._load. simpl. intros Hdoc.
  destruct (disk !! path) as [doc|].
  - specialize (Hdoc doc eq_refl).
    destruct doc as [| | | | |members]; try done. simpl in *.
    destruct (WarningStore.load_chats ∅ members) as [d|] eqn:Hload; [|done].
    intros [= <-]. simpl. eapply load_chats_nonneg; [done| |done].
    intros c users u n. by rewrite lookup_empty.
  - intros [= <-]. simpl. intros c users u n. by rewrite lookup_empty.
Qed.


End roundtrip.


(** The store itself does not come back: a chat emptied by a reset is
    written as an empty object and is absent after loading. *)
Example reload_drops_emptied_chat :
  WarningStore._data sample_store.1 !! "8" = Some ∅
  /\ exists fresh,
       WarningStore.__init__ "warnings.json" (WarningStore._save sample_store).2.2
       = Ok fresh
       /\ WarningStore._data fresh !! "8" = None
       /\ WarningStore._data fresh !! "-100" = Some {[ "5" := 1 ]}.
Proof. split; [by vm_compute|]. eexists. split; [by vm_compute|]. by vm_compute. Qed.


(** ** group_bot/bot.py *)

Import bot.

(** Unfolding of the coroutine combinators. *)
Ltac run :=
  cbv [mbind mret handler_bind handler_ret raise of_result call read on_store
       the_message the_reply reply_text _get_admin_ids not_a_reply after_calls];
  cbn [fst snd].

(** The parts of an update that let a command on a user go ahead. *)
Lemma target_of_Some (update : Update.t) (target : User.t) :
  target_of update = Some target ->
  exists message replied,
    Update.message update = Some message
    /\ Message.reply_to_message message = Some replied
    /\ Message.from_user replied = Some target.
Proof.
  unfold target_of. intros H.
  destruct (Update.message update) as [message|]; [|done]. simpl in H.
  destruct (Message.reply_to_message message) as [replied|] eqn:Hr; [|done].
  simpl in H. by exists message, replied.
Qed.

Lemma date_int32 (date : Date.t) : 0 <= date < 2 ^ 31.
Proof.
  destruct date as [timestamp Hint32]. cbn.
  apply andb_prop in Hint32 as [Hlow%Z.leb_le Hhigh%Z.ltb_lt]. lia.
Qed.

Lemma mute_minutes_positive (duration_minutes : option Z) (args : list string) :
  duration_minutes = None \/ duration_minutes = Some 60 ->
  1 <= mute_minutes duration_minutes args.
Proof.
  unfold mute_minutes. intros [-> | ->]; [|done].
  destruct args as [|arg rest]; [done|].
  destruct (Py.int arg) as [n|]; [|done].
  destruct (Z.eqb_spec (Z.max 1 n) 0); lia.
Qed.

(** The end of a mute is the date of the command plus the minutes, or there
    is none: an [OverflowError]. *)
Lemma mute_until_cases (date minutes : Z) :
  mute_until date minutes = Ok (date + 60 * minutes)
  \/ mute_until date minutes = Raise OverflowError.
Proof.
  unfold mute_until, Py.timedelta, Py.datetime_add.
  destruct (_ && _); [|by right]. destruct (_ && _); [by left | by right].
Qed.

(** For the date of a message and at least one minute, the end of the mute
    is past the last [datetime] exactly when there is none. *)
Lemma mute_until_spec (date : Date.t) (minutes : Z) :
  1 <= minutes ->
  mute_until date minutes
  = if (date + 60 * minutes <=? Py.datetime_max)%Z
    then Ok (date + 60 * minutes) else Raise OverflowError.
Proof.
  intros Hone. pose proof (date_int32 date) as Hdate.
  pose proof (Z.div_mod minutes 1440 ltac:(done)) as Hdiv.
  pose proof (Z.mod_pos_bound minutes 1440 ltac:(done)) as Hmod.
  unfold mute_until, Py.timedelta, Py.datetime_add, Py.datetime_min, Py.datetime_max.
  destruct (Z.leb_spec (date + 60 * minutes) 253402300799) as [Hle|Hlt].
  - assert ((-999999999 <=? minutes / 1440)%Z && (minutes / 1440 <=? 999999999)%Z
            = true) as ->
      by (apply andb_true_intro; split; apply Z.leb_le; lia).
    assert ((-62135596800 <=? date + 60 * minutes)%Z = true) as ->
      by (apply Z.leb_le; lia).
    by apply Z.leb_le in Hle as ->.
  - destruct (_ && _); [|done].
    assert ((date + 60 * minutes <=? 253402300799)%Z = false) as ->
      by (apply Z.leb_gt; lia).
    by rewrite andb_false_r.
Qed.


(** The mute that follows a warning at the limit has an end. *)
Lemma mute_until_auto (date : Date.t) (args : list string) :
  mute_until date (mute_minutes (Some 60) args)
  = Ok (date + 60 * mute_minutes (Some 60) args).
Proof.
  rewrite mute_until_spec by done.
  pose proof (date_int32 date) as Hdate.
  change (mute_minutes (Some 60) args) with 60.
  destruct (Z.leb_spec (date + 60 * 60) Py.datetime_max) as [|Hlt]; [done|].
  unfold Py.datetime_max in Hlt. lia.
Qed.

(** What [mute_user] does once the message is a reply to a known author and
    the invoking user is an administrator. *)
Lemma mute_user_run (update : Update.t) (context : context) (w : world)
    (duration_minutes : option Z) (message : Message.t) (target : User.t) :
  Update.message update = Some message ->
  target_of update = Some target ->
  invoker_is_admin update context = true ->
  mute_user update context duration_minutes w
  = match mute_until (Message.date message)
            (mute_minutes duration_minutes (args context)) with
    | Ok until_date =>
        (Ok tt,
         after_calls w
           [Api.get_chat_administrators (Chat.id (Update.effective_chat update));
            Api.restrict_chat_member (Chat.id (Update.effective_chat update))
              (User.id target) ChatPermissions.muted (Some until_date);
            Api.reply_text (Message.message_id message)
              (text_muted target (mute_minutes duration_minutes (args context)))])
    | Raise e =>
        (Raise e,
         after_calls w
           [Api.get_chat_administrators (Chat.id (Update.effective_chat update))])
    end.
Proof.
  intros Hm Ht Hadmin.
  destruct (target_of_Some _ _ Ht) as (message' & replied & Hm' & Hr & Hf).
  rewrite Hm in Hm'. injection Hm' as <-.
  unfold invoker_is_admin, fetched_admin_ids in Hadmin.
  unfold mute_user. run. rewrite Hm, Hr. cbn. rewrite Hf. cbn.
  rewrite Hadmin. cbn.
  destruct (mute_until _ _); cbn; by rewrite <- ?app_assoc.
Qed.

(** The mute that follows a warning at the limit. *)
Lemma mute_user_mutes (update : Update.t) (context : context) (w : world)
    (message : Message.t) (target : User.t) :
  Update.message update = Some message ->
  target_of update = Some target ->
  invoker_is_admin update context = true ->
  mute_user update context (Some 60) w
  = (Ok tt,
     after_calls w
       [Api.get_chat_administrators (Chat.id (Update.effective_chat update));
        Api.restrict_chat_member (Chat.id (Update.effective_chat update))
          (User.id target) ChatPermissions.muted
          (Some (Message.date message + 60 * 60));
        Api.reply_text (Message.message_id message) (text_muted target 60)]).
Proof.
  intros Hm Ht Hadmin.
  rewrite (mute_user_run update context w (Some 60) message target Hm Ht Hadmin).
  by rewrite mute_until_auto.
Qed.

(** C5: in [/mute] the duration is 10 minutes without an argument and when
    [int] rejects the argument, and the handler then returns after the
    restriction for 10 minutes and its confirmation, the only texts it sends;
    when [int] reads the argument the duration is the argument clamped from
    below at 1, and the handler returns after the restriction for that
    duration, unless its end is past the last [datetime]: then the handler
    raises [OverflowError] after the fetch of the administrators. *)
Theorem mute_duration_default_clamp_fallback
    (update : Update.t) (context : context) (w : world)
    (message : Message.t) (target : User.t) :
  Update.message update = Some message ->
  target_of update = Some target ->
  invoker_is_admin update context = true ->
  let minutes := mute_minutes None (args context) in
  (args context = [] ->
     minutes = 10
     /\ callback on_mute update context w
        = (Ok tt, after_calls w (mute_calls update message target 10)))
  /\ (forall arg rest,
        args context = arg :: rest -> Py.int arg = None ->
        minutes = 10
        /\ callback on_mute update context w
           = (Ok tt, after_calls w (mute_calls update message target 10)))
  /\ (forall arg rest n,
        args context = arg :: rest -> Py.int arg = Some n ->
        minutes = Z.max 1 n /\ 1 <= minutes
        /\ (Message.date message + 60 * minutes <= Py.datetime_max ->
            callback on_mute update context w
            = (Ok tt, after_calls w (mute_calls update message target minutes)))
        /\ (Py.datetime_max < Message.date message + 60 * minutes ->
            callback on_mute update context w
            = (Raise OverflowError,
               after_calls w
                 [Api.get_chat_administrators
                    (Chat.id (Update.effective_chat update))]))).
Proof.
  intros Hm Ht Hadmin minutes.
  pose proof (mute_user_run update context w None message target Hm Ht Hadmin)
    as Hrun.
  pose proof (mute_minutes_positive None (args context) (or_introl eq_refl))
    as Hone.
  rewrite mute_until_spec in Hrun by done.
  pose proof (date_int32 (Message.date message)) as Hdate.
  change (mute_user update context None w) with (callback on_mute update context w)
    in Hrun.
  fold minutes in Hrun, Hone.
  assert (minutes = 10 ->
          callback on_mute update context w
          = (Ok tt, after_calls w (mute_calls update message target 10))) as Hten.
  { intros Heq. rewrite Hrun, Heq.
    destruct (Z.leb_spec (Message.date message + 60 * 10) Py.datetime_max)
      as [|Hlt]; [done|].
    unfold Py.datetime_max in Hlt. lia. }
  assert (args context = [] -> minutes = 10) as Hnone.
  { subst minutes. unfold mute_minutes. by intros ->. }
  assert (forall arg rest,
            args context = arg :: rest -> Py.int arg = None -> minutes = 10)
    as Hbad.
  { subst minutes. unfold mute_minutes. by intros arg rest -> ->. }
  split; [|split].
  - intros Hargs. split; [|apply Hten]; by apply Hnone.
  - intros arg rest Hargs Hint. split; [|apply Hten]; by eapply Hbad.
  - intros arg rest n Hargs Hint. split; [|split; [done|split]].
    + subst minutes. unfold mute_minutes. rewrite Hargs, Hint.
      destruct (Z.eqb_spec (Z.max 1 n) 0); lia.
    + intros Hle. rewrite Hrun. by apply Z.leb_le in Hle as ->.
    + intros Hlt. rewrite Hrun. by apply Z.leb_gt in Hlt as ->.
Qed.

(** C5 at [/mute 0], at [/mute] with the digit five of extended Arabic-Indic
    and at [/mute 5000000000], each sent by an administrator in reply to a
    member. *)
Lemma mute_duration_default_clamp_fallback_witness :
  callback on_mute (reply_update sample_admin) (sample_context ["0"]) (sample_world 3)
  = (Ok tt,
     after_calls (sample_world 3)
       [Api.get_chat_administrators (-100500);
        Api.restrict_chat_member (-100500) 2002 ChatPermissions.muted
          (Some (1700000060 + 60 * 1));
        Api.reply_text 41 (text_muted sample_member 1)])
  /\ callback on_mute (reply_update sample_admin)
       (sample_context [extended_arabic_five]) (sample_world 3)
     = (Ok tt,
        after_calls (sample_world 3)
          [Api.get_chat_administrators (-100500);
           Api.restrict_chat_member (-100500) 2002 ChatPermissions.muted
             (Some (1700000060 + 60 * 5));
           Api.reply_text 41 (text_muted sample_member 5)])
  /\ callback on_mute (reply_update sample_admin) (sample_context ["5000000000"])
       (sample_world 3)
     = (Raise OverflowError,
        after_calls (sample_world 3) [Api.get_chat_administrators (-100500)]).
Proof.
  split; [|split].
  - destruct (mute_duration_default_clamp_fallback
                (reply_update sample_admin) (sample_context ["0"]) (sample_world 3)
                (command_message sample_admin (Some member_message)) sample_member)
      as (_ & _ & Hclamp); [by vm_compute ..|].
    destruct (Hclamp "0" [] 0) as (Hmin & _ & Hrun & _); [by vm_compute ..|].
    rewrite Hrun, Hmin; [reflexivity|]. by vm_compute.
  - destruct (mute_duration_default_clamp_fallback
                (reply_update sample_admin) (sample_context [extended_arabic_five])
                (sample_world 3)
                (command_message sample_admin (Some member_message)) sample_member)
      as (_ & _ & Hclamp); [by vm_compute ..|].
    destruct (Hclamp extended_arabic_five [] 5) as (Hmin & _ & Hrun & _);
      [by vm_compute ..|].
    rewrite Hrun, Hmin; [reflexivity|]. by vm_compute.
  - destruct (mute_duration_default_clamp_fallback
                (reply_update sample_admin) (sample_context ["5000000000"])
                (sample_world 3)
                (command_message sample_admin (Some member_message)) sample_member)
      as (_ & _ & Hclamp); [by vm_compute ..|].
    destruct (Hclamp "5000000000" [] 5000000000) as (_ & _ & _ & Hraise);
      [by vm_compute ..|].
    apply Hraise. by vm_compute.
Defined.

(** One [/warn] by an administrator in reply to a known author: below the
    limit the count is stored; at the limit the target is muted for 60 minutes
    and the count is reset. *)
Lemma warn_step (update : Update.t) (context : context) (w : world)
    (message : Message.t) (target : User.t) :
  Update.message update = Some message ->
  target_of update = Some target ->
  invoker_is_admin update context = true ->
  let new_count := target_count update target w + 1 in
  let after := warn update context w in
  after.1 = Ok tt
  /\ settings (data after.2) = settings (data w)
  /\ if (Settings.warnings_limit (settings (data w)) <=? new_count)%Z
     then calls after.2
          = (calls w ++ warned_calls update message target new_count
                     ++ auto_mute_calls update message target)%list
          /\ target_count update target after.2 = 0
     else calls after.2
          = (calls w ++ warned_calls update message target new_count)%list
          /\ target_count update target after.2 = new_count.
Proof.
  intros Hm Ht Hadmin.
  destruct (target_of_Some _ _ Ht) as (message' & replied & Hm' & Hr & Hf).
  rewrite Hm in Hm'. injection Hm' as <-.
  pose proof Hadmin as Hadmin'.
  unfold invoker_is_admin, fetched_admin_ids in Hadmin.
  unfold target_count. destruct w as [[st self ids] dsk cs].
  destruct (increment_count self dsk (Chat.id (Update.effective_chat update))
              (User.id target)) as [Hret Hstored].
  cbv zeta. unfold warn. run. rewrite Hm, Hr. cbn [negb]. rewrite Hf, Hadmin.
  cbn [negb fst snd data disk calls warnings settings] in *.
  destruct (WarningStore.increment _ _ _) as [n [self1 disk1]] eqn:Hinc.
  cbn [negb fst snd data disk calls warnings settings] in *. subst n.
  destruct (_ <=? _)%Z eqn:Hlim.
  - rewrite (mute_user_mutes update context _ message target Hm Ht Hadmin').
    cbn [after_calls negb fst snd data disk calls warnings settings].
    pose proof (reset_count self1 disk1 (Chat.id (Update.effective_chat update))
                  (User.id target)) as Hzero.
    destruct (WarningStore.reset _ _ _) as [[] [self2 disk2]] eqn:Hreset.
    cbn [after_calls negb fst snd data disk calls warnings settings] in *.
    repeat split; [|done].
    unfold warned_calls, auto_mute_calls. by rewrite <- !app_assoc.
  - cbn [after_calls negb fst snd data disk calls warnings settings].
    repeat split; [|done].
    unfold warned_calls. by rewrite <- !app_assoc.
Qed.

(** C2: a [/warn] whose new count is at or above the limit mutes the target
    until 60 minutes after the command (one restriction) and leaves the
    stored count at 0; below the limit it only records the count; with limit
    3 and no warning stored, three warns in a row answer with the counts 1, 2
    and 3, and the third mutes and leaves the count at 0. *)
Theorem warn_at_limit_mutes_and_resets
    (update : Update.t) (context : context) (w : world)
    (message : Message.t) (target : User.t) :
  Update.message update = Some message ->
  target_of update = Some target ->
  invoker_is_admin update context = true ->
  let limit := Settings.warnings_limit (settings (data w)) in
  let new_count := target_count update target w + 1 in
  let after := warn update context w in
  (limit <= new_count ->
     after.1 = Ok tt
     /\ calls after.2
        = (calls w ++ warned_calls update message target new_count
                   ++ auto_mute_calls update message target)%list
     /\ target_count update target after.2 = 0)
  /\ (new_count < limit ->
        after.1 = Ok tt
        /\ calls after.2
           = (calls w ++ warned_calls update message target new_count)%list
        /\ target_count update target after.2 = new_count)
  /\ (limit = 3 -> target_count update target w = 0 ->
        let w1 := after.2 in
        let w2 := (warn update context w1).2 in
        let w3 := (warn update context w2).2 in
        calls w1 = (calls w ++ warned_calls update message target 1)%list
        /\ target_count update target w1 = 1
        /\ calls w2 = (calls w1 ++ warned_calls update message target 2)%list
        /\ target_count update target w2 = 2
        /\ calls w3 = (calls w2 ++ warned_calls update message target 3
                                ++ auto_mute_calls update message target)%list
        /\ target_count update target w3 = 0).
Proof.
  intros Hm Ht Hadmin limit new_count after.
  pose proof (warn_step update context w message target Hm Ht Hadmin)
    as (Hok & Hset & Hstep).
  fold limit new_count after in Hok, Hset, Hstep.
  split; [|split].
  - intros Hle. apply Z.leb_le in Hle. rewrite Hle in Hstep. by destruct Hstep.
  - intros Hlt. apply Z.leb_gt in Hlt. rewrite Hlt in Hstep. by destruct Hstep.
  - intros Hlimit Hzero w1 w2 w3.
    subst new_count. rewrite Hlimit, Hzero in Hstep. cbn in Hstep.
    destruct Hstep as [Hc1 Hn1]. fold w1 in Hc1, Hn1, Hset.
    pose proof (warn_step update context w1 message target Hm Ht Hadmin)
      as (_ & Hset2 & Hstep2).
    fold w2 in Hset2, Hstep2.
    rewrite Hset, Hn1 in Hstep2. fold limit in Hstep2. rewrite Hlimit in Hstep2.
    cbn in Hstep2. destruct Hstep2 as [Hc2 Hn2].
    pose proof (warn_step update context w2 message target Hm Ht Hadmin)
      as (_ & _ & Hstep3).
    fold w3 in Hstep3.
    rewrite Hset2, Hset, Hn2 in Hstep3. fold limit in Hstep3. rewrite Hlimit in Hstep3.
    cbn in Hstep3. destruct Hstep3 as [Hc3 Hn3].
    done.
Qed.

(** C2 on an empty store with limit 3: the calls of three warns of the sample
    member by the sample administrator, and the count left behind. *)
Lemma warn_at_limit_mutes_and_resets_witness :
  calls warned_thrice
  = (warned_calls (reply_update sample_admin)
       (command_message sample_admin (Some member_message)) sample_member 1
     ++ warned_calls (reply_update sample_admin)
          (command_message sample_admin (Some member_message)) sample_member 2
     ++ warned_calls (reply_update sample_admin)
          (command_message sample_admin (Some member_message)) sample_member 3
     ++ auto_mute_calls (reply_update sample_admin)
          (command_message sample_admin (Some member_message)) sample_member)%list
  /\ target_count (reply_update sample_admin) sample_member warned_thrice = 0.
Proof.
  destruct (warn_at_limit_mutes_and_resets (reply_update sample_admin)
              (sample_context []) (sample_world 3)
              (command_message sample_admin (Some member_message)) sample_member)
    as (_ & _ & Hthree); [by vm_compute ..|].
  destruct Hthree as (H1 & _ & H2 & _ & H3 & Hzero); [by vm_compute ..|].
  fold warned_once in H1, H2, H3, Hzero.
  fold warned_twice in H2, H3, Hzero.
  fold warned_thrice in H3, Hzero.
  split; [|exact Hzero].
  rewrite H3, H2, H1. cbn [calls sample_world app]. by rewrite <- !app_assoc.
Defined.

(** Case analysis on a command of a list. *)
Ltac each_command H :=
  repeat (apply elem_of_cons in H as [->|H]); [..| by apply elem_of_nil in H].

(** Case analysis on the message of an update, its reply and the author of
    the reply. *)
Ltac by_update update :=
  destruct (Update.message update) as [[? ? ? [[? ? [?|] ? ?]|] ?]|].

(** A command that needs a target, sent in a new message that is not a reply,
    is answered with the guidance text and nothing else happens. *)
Lemma plain_message_gets_guidance (h : registered) (update : Update.t)
    (context : context) (w : world) (message : Message.t) :
  h ∈ needs_target ->
  Update.message update = Some message ->
  Message.reply_to_message message = None ->
  exists body,
    guidance h = Some body
    /\ callback h update context w
       = (Ok tt, after_calls w [Api.reply_text (Message.message_id message) body]).
Proof.
  intros Hin Hm Hr. unfold needs_target in Hin.
  each_command Hin; eexists; (split; [reflexivity|]);
    cbn [callback]; unfold warn, warn_info, mute, mute_user, unmute, ban, reset_warns, pin;
    run; by rewrite Hm, Hr.
Qed.

(** C6, where the code departs from it: a command that needs a target, sent
    by editing a message, reaches its handler with [update.message] absent;
    the handler takes the branch of a missing reply and raises on
    [update.message.reply_text], whether or not the edited message is a
    reply, and nothing is sent. *)
Theorem edited_command_raises (h : registered) (update : Update.t)
    (context : context) (w : world) :
  h ∈ needs_target ->
  Update.message update = None ->
  not_a_reply update = true
  /\ callback h update context w = (Raise AttributeError, w).
Proof.
  intros Hin Hm. unfold needs_target in Hin. split.
  - unfold not_a_reply. by rewrite Hm.
  - each_command Hin;
      cbn [callback]; unfold warn, warn_info, mute, mute_user, unmute, ban, reset_warns, pin;
      run; by rewrite Hm.
Qed.

(** C6 at [/warn] sent by editing a message that is not a reply. *)
Lemma edited_command_raises_witness :
  effective_message (edited_update sample_admin)
  = Some (command_message sample_admin None)
  /\ Message.reply_to_message (command_message sample_admin None) = None
  /\ callback on_warn (edited_update sample_admin) (sample_context []) (sample_world 3)
     = (Raise AttributeError, sample_world 3).
Proof.
  split; [reflexivity|]. split; [reflexivity|].
  apply (edited_command_raises on_warn (edited_update sample_admin)).
  - unfold needs_target. constructor.
  - reflexivity.
Defined.

(** C4, as stated, fails: [/warn] sent plainly (not as a reply) by a user who
    is not in the administrator list is answered with the guidance text; no
    rejection is sent. *)
Lemma plain_warn_by_member_not_rejected :
  on_warn ∈ admin_gated
  /\ invoker_is_admin (plain_update sample_member) (sample_context []) = false
  /\ callback on_warn (plain_update sample_member) (sample_context []) (sample_world 3)
     = (Ok tt, after_calls (sample_world 3) [Api.reply_text 41 text_warn_needs_reply])
  /\ ~ sends_rejection on_warn
        (calls (callback on_warn (plain_update sample_member) (sample_context [])
                  (sample_world 3)).2).
Proof.
  split; [constructor|]. split; [by vm_compute|]. split; [reflexivity|].
  intros (message_id & body & [= <-] & Hin).
  cbn in Hin. apply list_elem_of_singleton in Hin. discriminate.
Qed.

(** C4, amended: when the invoking user is not in the fetched administrator
    list, an admin-gated command makes no moderation call and leaves
    [bot_data] and the disk as they were; and when the update lets the command
    reach its check and answer (a new message, for [pin] a reply, for the
    commands on a user a reply to a known author), it returns after the fetch
    of the administrators and the rejection reply, its only calls. *)
Theorem non_admin_changes_nothing (h : registered) (update : Update.t)
    (context : context) (w : world) :
  h ∈ admin_gated ->
  invoker_is_admin update context = false ->
  let after := callback h update context w in
  data after.2 = data w
  /\ disk after.2 = disk w
  /\ (exists new, calls after.2 = (calls w ++ new)%list
                  /\ forallb (λ c, negb (is_moderation c)) new = true)
  /\ (reaches_admin_check h update = true ->
      exists message body,
        Update.message update = Some message
        /\ rejection h = Some body
        /\ after
           = (Ok tt,
              after_calls w
                [Api.get_chat_administrators (Chat.id (Update.effective_chat update));
                 Api.reply_text (Message.message_id message) body])).
Proof.
  intros Hin Hadmin.
  unfold invoker_is_admin, fetched_admin_ids in Hadmin.
  unfold admin_gated in Hin. destruct w as [d dsk cs].
  each_command Hin; cbv zeta;
    cbn [callback reaches_admin_check rejection];
    unfold warn, mute, mute_user, unmute, ban, lock_chat, unlock_chat, reset_warns, pin,
           target_of;
    run; by_update update; cbn; rewrite ?Hadmin; cbn;
    (split; [done|]); (split; [done|]);
    (split;
     [ first [ by (exists []; rewrite app_nil_r)
             | eexists; split; [by rewrite <- ?app_assoc | done] ]
     | first [ by (intros [=])
             | by (intros Hb; apply bool_decide_eq_true_1 in Hb as [? [=]])
             | intros _; do 2 eexists; repeat split; by rewrite <- ?app_assoc ] ]).
Qed.

(** C4, amended, at [/ban] sent by the sample member in reply to a message. *)
Lemma non_admin_changes_nothing_witness :
  callback on_ban (reply_update sample_member) (sample_context []) (sample_world 3)
  = (Ok tt,
     after_calls (sample_world 3)
       [Api.get_chat_administrators (-100500);
        Api.reply_text 41 text_ban_admins_only]).
Proof.
  destruct (non_admin_changes_nothing on_ban (reply_update sample_member)
              (sample_context []) (sample_world 3))
    as (_ & _ & _ & Hreject).
  - unfold admin_gated. repeat constructor.
  - by vm_compute.
  - destruct Hreject as (message & body & Hm & Hbody & Hafter); [by vm_compute|].
    injection Hm as <-. injection Hbody as <-. exact Hafter.
Defined.

(** *** The [admin_ids] entry of [bot_data] is never read *)

Lemma observable_inv (w1 w2 : world) :
  observable w1 = observable w2 ->
  settings (data w1) = settings (data w2)
  /\ warnings (data w1) = warnings (data w2)
  /\ disk w1 = disk w2 /\ calls w1 = calls w2.
Proof. unfold observable. by intros [= -> -> -> ->]. Qed.

Lemma ignores_ret {A} (a : A) : ignores_admin_ids (mret a).
Proof. by intros w1 w2 H. Qed.

Lemma ignores_raise {A} (e : exn) : ignores_admin_ids (raise (A := A) e).
Proof. by intros w1 w2 H. Qed.

Lemma ignores_of_result {A} (r : result A) : ignores_admin_ids (of_result r).
Proof. by intros w1 w2 H. Qed.

Lemma ignores_call (c : Api.call) : ignores_admin_ids (call c).
Proof.
  intros w1 w2 (Hs & Hw & Hd & Hc)%observable_inv. split; [done|].
  unfold observable, call. cbn. by rewrite Hs, Hw, Hd, Hc.
Qed.

Lemma ignores_read {A} (f : bot_data -> A) :
  (forall d1 d2, settings d1 = settings d2 -> warnings d1 = warnings d2 -> f d1 = f d2) ->
  ignores_admin_ids (read f).
Proof.
  intros Hf w1 w2 H. pose proof H as (Hs & Hw & _)%observable_inv.
  unfold read. cbn. by rewrite (Hf _ _ Hs Hw).
Qed.

Lemma ignores_on_store {A} (m : WarningStore.method A) : ignores_admin_ids (on_store m).
Proof.
  intros w1 w2 (Hs & Hw & Hd & Hc)%observable_inv.
  unfold on_store, observable. rewrite Hs, Hw, Hd, Hc.
  by destruct (m (warnings (data w2), disk w2)) as [a [self dsk]].
Qed.

Lemma ignores_bind {A B} (m : Handler A) (k : A -> Handler B) :
  ignores_admin_ids m -> (forall a, ignores_admin_ids (k a)) ->
  ignores_admin_ids (m ≫= k).
Proof.
  intros Hm Hk w1 w2 H. destruct (Hm w1 w2 H) as [Hr Ho].
  unfold mbind, handler_bind.
  destruct (m w1) as [[a1|e1] w1'], (m w2) as [[a2|e2] w2']; cbn in *; try done.
  - injection Hr as <-. by apply Hk.
  - by injection Hr as <-.
Qed.

Lemma ignores_the_message (update : Update.t) : ignores_admin_ids (the_message update).
Proof.
  unfold the_message.
  destruct (Update.message update); [apply ignores_ret | apply ignores_raise].
Qed.

Lemma ignores_reply_text (update : Update.t) (body : text) :
  ignores_admin_ids (reply_text update body).
Proof.
  apply ignores_bind; [apply ignores_the_message | intros; apply ignores_call].
Qed.

Lemma ignores_the_reply (update : Update.t) : ignores_admin_ids (the_reply update).
Proof.
  apply ignores_bind; [apply ignores_the_message|]. intros message.
  destruct (Message.reply_to_message message); [apply ignores_ret | apply ignores_raise].
Qed.

Lemma ignores__get_admin_ids (context : context) (chat_id : Z) :
  ignores_admin_ids (_get_admin_ids context chat_id).
Proof.
  apply ignores_bind; [apply ignores_call | intros; apply ignores_ret].
Qed.

Lemma ignores_welcome_each (update : Update.t) (members : list User.t) :
  ignores_admin_ids (welcome_each update members).
Proof.
  induction members as [|member rest IH]; [apply ignores_ret|].
  apply ignores_bind; [apply ignores_reply_text | by intros].
Qed.

(** Composition of the lemmas above along the text of a handler. *)
Ltac ignores :=
  repeat first
    [ apply ignores_ret | apply ignores_raise | apply ignores_of_result
    | apply ignores_call
    | apply ignores_on_store | apply ignores_reply_text | apply ignores_the_message
    | apply ignores_the_reply | apply ignores__get_admin_ids
    | apply ignores_welcome_each
    | apply ignores_read; intros ? ? -> ?; reflexivity
    | apply ignores_bind; [|intros ?]
    | match goal with
      | |- ignores_admin_ids (if ?b then _ else _) => destruct b
      | |- ignores_admin_ids (match ?x with _ => _ end) => destruct x
      end ].

Lemma ignores_mute_user (update : Update.t) (context : context)
    (duration_minutes : option Z) :
  ignores_admin_ids (mute_user update context duration_minutes).
Proof. unfold mute_user. ignores. Qed.

Lemma ignores_track_admin (update : Update.t) (context : context) :
  ignores_admin_ids (track_admin update context).
Proof.
  unfold track_admin. destruct (Update.chat_member update); [|apply ignores_ret].
  intros w1 w2 (Hs & Hw & Hd & Hc)%observable_inv. split; [done|].
  unfold observable. cbn. by rewrite Hs, Hw, Hd, Hc.
Qed.

Lemma ignores_callback (h : registered) (update : Update.t) (context : context) :
  ignores_admin_ids (callback h update context).
Proof.
  destruct h; cbn [callback];
    try apply ignores_track_admin;
    unfold start, help_command, rules, warn, warn_info, mute, unmute, lock_chat,
           unlock_chat, ban, reset_warns, pin, stats, welcome, block_links;
    ignores; apply ignores_mute_user.
Qed.

(** A handler run depends on the platform's administrators only through the
    list fetched for the chat of the update. *)
Lemma callback_reads_fetched_list (h : registered) (update : Update.t)
    (context1 context2 : context) (w : world) :
  args context1 = args context2 ->
  fetched_admin_ids update context1 = fetched_admin_ids update context2 ->
  callback h update context1 w = callback h update context2 w.
Proof.
  intros Hargs Hids. unfold fetched_admin_ids in Hids.
  destruct h; cbn [callback];
    unfold start, help_command, rules, warn, warn_info, mute, mute_user, unmute,
           lock_chat, unlock_chat, ban, reset_warns, pin, stats, welcome, block_links,
           track_admin, _get_admin_ids;
    rewrite ?Hargs, ?Hids; reflexivity.
Qed.

(** C10: no handler's result, calls, store, disk or settings depend on the
    [admin_ids] entry of [bot_data]: replacing the entry by any other leaves
    them the same, for every registered handler and every update; and a run
    depends on the administrators of the platform only through the list
    fetched in that run for the chat of the update, the list [_is_admin] is
    applied to. *)
Theorem handlers_ignore_admin_ids_cache (h : registered) (update : Update.t)
    (context : context) (w : world) (ids : option (gmap Z (gset Z))) :
  ((callback h update context (with_admin_ids ids w)).1
   = (callback h update context w).1
   /\ observable (callback h update context (with_admin_ids ids w)).2
      = observable (callback h update context w).2)
  /\ (forall context' : bot.context,
        args context' = args context ->
        fetched_admin_ids update context' = fetched_admin_ids update context ->
        callback h update context' w = callback h update context w).
Proof.
  split.
  - by apply ignores_callback.
  - intros context'. apply callback_reads_fetched_list.
Qed.

(** C10 at [/lock] by the sample administrator: a world whose [admin_ids]
    entry lists nobody for the chat, and a platform that differs on another
    chat, give the run of the sample world and platform. *)
Lemma handlers_ignore_admin_ids_cache_witness :
  observable (callback on_lock (plain_update sample_admin) (sample_context [])
                (with_admin_ids (Some {[ -100500 := ∅ ]}) (sample_world 3))).2
  = observable (callback on_lock (plain_update sample_admin) (sample_context [])
                  (sample_world 3)).2
  /\ callback on_lock (plain_update sample_admin) other_context (sample_world 3)
     = callback on_lock (plain_update sample_admin) (sample_context []) (sample_world 3).
Proof.
  destruct (handlers_ignore_admin_ids_cache on_lock (plain_update sample_admin)
              (sample_context []) (sample_world 3) (Some {[ -100500 := ∅ ]}))
    as [[_ Hcache] Hlist].
  split; [exact Hcache|]. apply Hlist; reflexivity.
Defined.

(** * Further properties *)

(** ** The store: what a call leaves alone *)

(** X1: an [increment] or a [reset] of one pair leaves the count [get] reads
    for every other pair, in the same chat or another, as it was. *)
Theorem other_pairs_keep_their_count
    (st : WarningStore.t * files) (chat_id user_id chat_id' user_id' : Z) :
  (chat_id, user_id) <> (chat_id', user_id') ->
  (WarningStore.get chat_id user_id
     (WarningStore.increment chat_id' user_id' st).2).1
  = (WarningStore.get chat_id user_id st).1
  /\ (WarningStore.get chat_id user_id
        (WarningStore.reset chat_id' user_id' st).2).1
     = (WarningStore.get chat_id user_id st).1.
Proof.
  intros Hne. destruct st as [self disk].
  pose proof (increment_count_other self disk _ _ _ _ Hne) as Hi.
  pose proof (reset_count_other self disk _ _ _ _ Hne) as Hr.
  destruct (WarningStore.increment chat_id' user_id' (self, disk)) as [n [s1 d1]].
  destruct (WarningStore.reset chat_id' user_id' (self, disk)) as [[] [s2 d2]].
  cbn [snd fst] in *. by rewrite !get_count.
Qed.

(** X1 at two users of one chat in the sample store. *)
Lemma other_pairs_keep_their_count_witness :
  (WarningStore.get (-100) 5 (WarningStore.increment (-100) 6 sample_store).2).1
  = (WarningStore.get (-100) 5 sample_store).1.
Proof.
  apply (other_pairs_keep_their_count sample_store (-100) 5 (-100) 6).
  intros [=].
Defined.

(** X2: a [reset] of a pair that has no entry changes neither the object nor
    the disk (no file is written); so a second [reset] of a pair does
    nothing. *)
Theorem reset_of_absent_pair_is_noop
    (st : WarningStore.t * files) (chat_id user_id : Z) :
  ((WarningStore.get_all chat_id st).1 !! Py.str user_id = None ->
   WarningStore.reset chat_id user_id st = (tt, st))
  /\ WarningStore.reset chat_id user_id (WarningStore.reset chat_id user_id st).2
     = (tt, (WarningStore.reset chat_id user_id st).2).
Proof.
  destruct st as [self disk]. split.
  - cbn. by intros ->.
  - unfold WarningStore.reset at 2 3.
    destruct (WarningStore.users_of (WarningStore._data self) (Py.str chat_id)
                !! Py.str user_id) eqn:H.
    + cbn. unfold WarningStore.users_of at 1. rewrite lookup_insert_eq. cbn.
      by rewrite lookup_delete_eq.
    + cbn. by rewrite H.
Qed.

(** X2 on a store without file: the reset writes none. *)
Lemma reset_of_absent_pair_is_noop_witness :
  WarningStore.reset 7 1 (empty_store "warnings.json", ∅)
  = (tt, (empty_store "warnings.json", ∅)).
Proof.
  apply (proj1 (reset_of_absent_pair_is_noop (empty_store "warnings.json", ∅) 7 1)).
  reflexivity.
Defined.

(** X3: [increment] puts the new count under the user's key of the chat's
    dict and [reset] removes the key; the dicts [get_all] returns for the
    other chats are unchanged. *)
Theorem get_all_after_increment_and_reset
    (st : WarningStore.t * files) (chat_id user_id : Z) :
  (WarningStore.get_all chat_id (WarningStore.increment chat_id user_id st).2).1
  = <[Py.str user_id := (WarningStore.get chat_id user_id st).1 + 1]>
      (WarningStore.get_all chat_id st).1
  /\ (WarningStore.get_all chat_id (WarningStore.reset chat_id user_id st).2).1
     = delete (Py.str user_id) (WarningStore.get_all chat_id st).1
  /\ (forall chat_id' : Z, chat_id' <> chat_id ->
        (WarningStore.get_all chat_id' (WarningStore.increment chat_id user_id st).2).1
        = (WarningStore.get_all chat_id' st).1
        /\ (WarningStore.get_all chat_id' (WarningStore.reset chat_id user_id st).2).1
           = (WarningStore.get_all chat_id' st).1).
Proof.
  destruct st as [self disk]. split; [|split].
  - cbn. rewrite users_of_setitem. by rewrite decide_True.
  - unfold WarningStore.reset.
    destruct (WarningStore.users_of (WarningStore._data self) (Py.str chat_id)
                !! Py.str user_id) eqn:H; cbn.
    + unfold WarningStore.users_of at 1. by rewrite lookup_insert_eq.
    + by rewrite delete_id.
  - intros chat_id' Hne.
    assert (Py.str chat_id <> Py.str chat_id') as Hk
      by (intros Heq; apply (inj Py.str) in Heq; congruence).
    split.
    + cbn. rewrite users_of_setitem. by rewrite decide_False.
    + unfold WarningStore.reset.
      destruct (WarningStore.users_of (WarningStore._data self) (Py.str chat_id)
                  !! Py.str user_id) eqn:H; cbn; [|done].
      unfold WarningStore.users_of at 1. by rewrite lookup_insert_ne.
Qed.

(** X3 at another chat of the sample store. *)
Lemma get_all_after_increment_and_reset_witness :
  (WarningStore.get_all (-100) (WarningStore.increment 8 9 sample_store).2).1
  = (WarningStore.get_all (-100) sample_store).1.
Proof.
  apply (proj2 (proj2 (get_all_after_increment_and_reset sample_store 8 9)) (-100)).
  lia.
Defined.

(** ** The store: construction and the file *)

Lemma init_path (path : string) (disk : files) (self : WarningStore.t) :
  WarningStore.__init__ path disk = Ok self -> WarningStore.path self = path.
Proof.
  unfold WarningStore.__init__, WarningStore._load. cbn.
  destruct (disk !! path) as [doc|]; [|by intros [= <-]].
  destruct (items doc) as [chats|]; [|done].
  destruct (WarningStore.load_chats ∅ chats); [|done]. by intros [= <-].
Qed.








Lemma load_users_loads (d : WarningStore.data) (chat_id : string)
    (users : list (string * json)) :
  (exists d', WarningStore.load_users d chat_id users = Ok d')
  <-> forallb (λ p : string * json, count_loads p.2) users = true.
Proof.
  revert d. induction users as [|[user_id count] rest IH]; intros d; cbn.
  - split; [done | by eexists].
  - unfold count_loads at 1. cbn.
    destruct (int_of_json count) as [n|e]; cbn; [apply IH|].
    split; [by intros [d' [=]] | done].
Qed.

Lemma load_chats_loads (d : WarningStore.data) (raw : list (string * json)) :
  (exists d', WarningStore.load_chats d raw = Ok d')
  <-> forallb (λ p : string * json, users_load p.2) raw = true.
Proof.
  revert d. induction raw as [|[chat_id users] rest IH]; intros d; cbn.
  - split; [done | by eexists].
  - destruct users as [| | | | |members]; cbn;
      try (split; [by intros [d' [=]] | done]).
    destruct (WarningStore.load_users d chat_id members) as [d1|e] eqn:Hload.
    + assert (forallb (λ p : string * json, count_loads p.2) members = true) as ->
        by (apply (load_users_loads d chat_id); by eexists).
      apply IH.
    + split; [by intros [d' [=]]|].
      intros [Hl _]%andb_prop.
      apply (load_users_loads d chat_id) in Hl as [d' Hd']. congruence.
Qed.

Lemma is_document_loads (doc : json) :
  is_document doc = true -> document_loads doc = true.
Proof.
  destruct doc as [| | | | |members]; try done. cbn.
  intros H. apply forallb_forall. intros [c j] Hin.
  apply (proj1 (forallb_forall _ _) H) in Hin. cbn in *.
  destruct j as [| | | | |users]; try done. cbn in *.
  apply forallb_forall. intros [u n] Hu.
  apply (proj1 (forallb_forall _ _) Hin) in Hu. cbn in *.
  by destruct n.
Qed.

Lemma init_without_file (path : string) (disk : files) :
  disk !! path = None -> WarningStore.__init__ path disk = Ok (empty_store path).
Proof.
  intros H. unfold WarningStore.__init__, WarningStore._load. cbn. by rewrite H.
Qed.

Lemma init_loads_iff (path : string) (disk : files) (doc : json) :
  disk !! path = Some doc ->
  (exists self, WarningStore.__init__ path disk = Ok self)
  <-> document_loads doc = true.
Proof.
  intros Hdoc. unfold WarningStore.__init__, WarningStore._load. cbn. rewrite Hdoc.
  destruct doc as [| | | | |members]; cbn;
    try (split; [by intros [self [=]] | done]).
  rewrite <- (load_chats_loads ∅ members).
  destruct (WarningStore.load_chats ∅ members) as [d|e].
  - split; intros _; by eexists.
  - split; [by intros [self [=]] | by intros [d' [=]]].
Qed.

Lemma init_of_document (path : string) (disk : files) (doc : json) :
  disk !! path = Some doc -> is_document doc = true ->
  exists self, WarningStore.__init__ path disk = Ok self
               /\ counts_nonneg (WarningStore._data self).
Proof.
  intros Hdoc Hfmt. pose proof Hfmt as Hloads.
  apply is_document_loads, (init_loads_iff path disk doc Hdoc) in Hloads
    as [self Hself].
  exists self. split; [done|]. eapply init_nonneg; [|done].
  intros doc' Hdoc'. rewrite Hdoc in Hdoc'. by injection Hdoc' as <-.
Qed.



(** ** The handlers *)

Arguments WarningStore.increment : simpl never.
Arguments WarningStore.reset : simpl never.
Arguments mute_minutes : simpl never.
Arguments mute_until : simpl never.

Lemma after_calls_nil (w : world) : after_calls w [] = w.
Proof. destruct w. unfold after_calls. cbn. by rewrite app_nil_r. Qed.

Lemma after_calls_app (w : world) (l1 l2 : list Api.call) :
  after_calls (after_calls w l1) l2 = after_calls w (l1 ++ l2).
Proof. unfold after_calls. cbn. by rewrite app_assoc. Qed.

Lemma welcome_each_run (update : Update.t) (message : Message.t)
    (members : list User.t) (w : world) :
  Update.message update = Some message ->
  welcome_each update members w
  = (Ok tt,
     after_calls w
       ((λ member, Api.reply_text (Message.message_id message) (text_welcome member))
          <$> members)).
Proof.
  intros Hm. revert w. induction members as [|member rest IH]; intros w; cbn.
  - by rewrite after_calls_nil.
  - run. rewrite Hm. cbn. rewrite IH. unfold after_calls. cbn.
    by rewrite <- app_assoc.
Qed.

(** X6: [welcome] answers a message that announces new members with one
    greeting per member, in the order of the list, each a reply to that
    message, and changes nothing else; without members it sends nothing, and
    on an update without message it returns at once. *)
Theorem welcome_greets_each_member
    (update : Update.t) (context : context) (w : world) :
  (Update.message update = None -> welcome update context w = (Ok tt, w))
  /\ (forall message,
        Update.message update = Some message ->
        welcome update context w
        = (Ok tt,
           after_calls w
             ((λ member,
                 Api.reply_text (Message.message_id message) (text_welcome member))
                <$> Message.new_chat_members message))
        /\ length (calls (welcome update context w).2)
           = (length (calls w) + length (Message.new_chat_members message))%nat).
Proof.
  split.
  - intros Hm. unfold welcome. by rewrite Hm.
  - intros message Hm. unfold welcome. rewrite Hm.
    rewrite (welcome_each_run update message _ w Hm). split; [done|].
    cbn. by rewrite length_app, length_fmap.
Qed.

(** Case analysis on an update: its message, the message replied to and the
    author of that one, the chat, the invoking user and the membership
    change. *)
Ltac split_update update :=
  destruct update as
    [[[? ? [[?]|] [[? ? [[?]|] ? ?]|] ?]|] ? [?] [[?]|] [[[?] [[?] ?]]|]].

(** Symbolic run of a handler on a world: the combinators are unfolded, the
    results of the store methods and the tests are named. *)
Ltac exec :=
  cbn [callback];
  unfold start, help_command, rules, warn, warn_info, mute, mute_user, unmute,
         lock_chat, unlock_chat, ban, reset_warns, pin, stats, welcome, block_links,
         track_admin;
  run; cbn;
  try (erewrite welcome_each_run by reflexivity);
  repeat first
    [ match goal with
      | |- context [WarningStore.increment ?c ?u ?st] =>
          let H := fresh "Hincrement" in
          destruct (WarningStore.increment c u st) as [? [? ?]] eqn:H
      | |- context [WarningStore.reset ?c ?u ?st] =>
          let H := fresh "Hreset" in
          destruct (WarningStore.reset c u st) as [[] [? ?]] eqn:H
      | |- context [mute_until (Date.timestamp ?date) (mute_minutes (Some 60) ?a)] =>
          rewrite (mute_until_auto date a)
      | |- context [mute_until ?date ?minutes] =>
          let H := fresh "Huntil" in
          destruct (mute_until_cases date minutes) as [H|H]; rewrite H
      | |- context [bool_decide ?P] =>
          let H := fresh "Hdecide" in destruct (bool_decide P) eqn:H
      | |- context [(?x <=? ?y)%Z] =>
          let H := fresh "Hlimit" in destruct (x <=? y)%Z eqn:H
      | |- context [Settings.admin_only_links ?s] =>
          let H := fresh "Hlinks" in destruct (Settings.admin_only_links s) eqn:H
      end
    | progress cbn ].

(** X7: no handler changes the settings, and only [/warn] and [/resetwarns]
    change the store or the disk: every other handler leaves the store
    object and every file as they were, on every update. *)
Theorem only_warn_and_resetwarns_write
    (h : registered) (update : Update.t) (context : context) (w : world) :
  settings (data (callback h update context w).2) = settings (data w)
  /\ (writes_store h = false ->
      store_of (callback h update context w).2 = store_of w).
Proof.
  destruct w as [[st self ids] dsk cs].
  destruct h; split_update update; exec; (split; [done|]); by intros.
Qed.

(** X7 at [/stats] and [/ban] by the sample administrator. *)
Lemma only_warn_and_resetwarns_write_witness :
  store_of (callback on_stats (plain_update sample_admin) (sample_context [])
              (sample_world 3)).2 = store_of (sample_world 3)
  /\ store_of (callback on_ban (reply_update sample_admin) (sample_context [])
                 (sample_world 3)).2 = store_of (sample_world 3).
Proof.
  split.
  - by apply (only_warn_and_resetwarns_write on_stats).
  - by apply (only_warn_and_resetwarns_write on_ban).
Defined.


(** X9: every call a handler makes on the Bot API is addressed to the
    update: the administrators are fetched, permissions set and notices sent
    for the chat of the update, a restriction or ban is on the author of the
    replied-to message in that chat, replies and deletions are on the message
    of the update, and the pinned message is the one replied to. *)
Theorem calls_are_addressed_to_the_update
    (h : registered) (update : Update.t) (context : context) (w : world) :
  exists new,
    calls (callback h update context w).2 = (calls w ++ new)%list
    /\ Forall (addressed_to update) new.
Proof.
  destruct w as [[st self ids] dsk cs].
  destruct h; split_update update; exec;
    first [ by (exists []; rewrite app_nil_r)
          | eexists; split; [by rewrite <- ?app_assoc|];
            rewrite ?Forall_fmap; repeat constructor;
            by apply Forall_true ].
Qed.

(** X6 at a message that announces two members. *)
Lemma welcome_greets_each_member_witness :
  welcome join_update (sample_context []) (sample_world 3)
  = (Ok tt,
     after_calls (sample_world 3)
       [Api.reply_text 50 (text_welcome sample_member);
        Api.reply_text 50 (text_welcome (User.mk 3003))]).
Proof.
  apply (proj2 (welcome_greets_each_member join_update (sample_context [])
                  (sample_world 3))
           (Message.mk 50 (Date.mk 1700000100 eq_refl) None None
              [sample_member; User.mk 3003])).
  reflexivity.
Defined.

(** X10: [block_links] makes no call at all when [admin_only_links] is off or
    the message has no author; otherwise it fetches the administrators, and
    it deletes the message and posts the notice exactly when the author of
    the message is not among them. It never touches the store. *)
Theorem block_links_deletes_only_non_admin_links
    (update : Update.t) (context : context) (w : world)
    (message : Message.t) (sender : User.t) :
  Update.message update = Some message ->
  Message.from_user message = Some sender ->
  let chat_id := Chat.id (Update.effective_chat update) in
  (Settings.admin_only_links (settings (data w)) = false ->
     block_links update context w = (Ok tt, w))
  /\ (Settings.admin_only_links (settings (data w)) = true ->
      _is_admin (Some sender) (fetched_admin_ids update context) = true ->
      block_links update context w
      = (Ok tt, after_calls w [Api.get_chat_administrators chat_id]))
  /\ (Settings.admin_only_links (settings (data w)) = true ->
      _is_admin (Some sender) (fetched_admin_ids update context) = false ->
      block_links update context w
      = (Ok tt,
         after_calls w
           [Api.get_chat_administrators chat_id;
            Api.delete (Message.message_id message);
            Api.send_message chat_id (text_links_forbidden sender)])).
Proof.
  intros Hm Hs chat_id. unfold fetched_admin_ids, block_links. run.
  rewrite Hm, Hs. repeat split; intros Hflag; rewrite Hflag; cbn; [done| |].
  - intros Hb. by rewrite Hb.
  - intros Hb. rewrite Hb. cbn. by rewrite <- !app_assoc.
Qed.

(** X10 at a link of the sample member, with the restriction on and off. *)
Lemma block_links_deletes_only_non_admin_links_witness :
  block_links (link_update sample_member) (sample_context []) (sample_world 3)
  = (Ok tt,
     after_calls (sample_world 3)
       [Api.get_chat_administrators (-100500);
        Api.delete 60;
        Api.send_message (-100500) (text_links_forbidden sample_member)])
  /\ block_links (link_update sample_member) (sample_context []) links_allowed_world
     = (Ok tt, links_allowed_world).
Proof.
  split.
  - apply (proj2 (proj2 (block_links_deletes_only_non_admin_links
                           (link_update sample_member) (sample_context [])
                           (sample_world 3)
                           (Message.mk 60 (Date.mk 1700000200 eq_refl)
                              (Some sample_member) None [])
                           sample_member eq_refl eq_refl)));
      by vm_compute.
  - apply (proj1 (block_links_deletes_only_non_admin_links
                    (link_update sample_member) (sample_context [])
                    links_allowed_world
                    (Message.mk 60 (Date.mk 1700000200 eq_refl)
                       (Some sample_member) None [])
                    sample_member eq_refl eq_refl)).
    reflexivity.
Defined.

(** X11: [track_admin] only ever adds to the [admin_ids] entry: every id
    tracked for a chat stays tracked after any update, also after one that
    reports a demotion; an update that reports a new administrator adds that
    user to the ids of that chat; an update without membership change leaves
    the world as it is. *)
Theorem track_admin_only_adds
    (update : Update.t) (context : context) (w : world) :
  (forall chat_id, tracked w chat_id ⊆ tracked (track_admin update context w).2 chat_id)
  /\ (forall change,
        Update.chat_member update = Some change ->
        ChatMember.status (ChatMemberUpdated.new_chat_member change) = ADMINISTRATOR ->
        User.id (ChatMember.user (ChatMemberUpdated.new_chat_member change))
        ∈ tracked (track_admin update context w).2
            (Chat.id (ChatMemberUpdated.chat change)))
  /\ (forall change,
        Update.chat_member update = Some change ->
        ChatMember.status (ChatMemberUpdated.new_chat_member change) <> ADMINISTRATOR ->
        forall chat_id,
          tracked (track_admin update context w).2 chat_id = tracked w chat_id)
  /\ (Update.chat_member update = None -> track_admin update context w = (Ok tt, w)).
Proof.
  unfold track_admin, tracked. split; [|split; [|split]].
  - intros chat_id. destruct (Update.chat_member update) as [change|]; [|done].
    cbn. destruct (ChatMember.status _); try done.
    destruct (decide (Chat.id (ChatMemberUpdated.chat change) = chat_id)) as [->|Hne].
    + rewrite lookup_insert_eq. cbn. set_solver.
    + by rewrite lookup_insert_ne.
  - intros change -> Hstatus. cbn. rewrite Hstatus, lookup_insert_eq. cbn. set_solver.
  - intros change -> Hstatus chat_id. cbn.
    by destruct (ChatMember.status _).
  - by intros ->.
Qed.

(** X11 at a promotion followed by a demotion of the sample member. *)
Lemma track_admin_only_adds_witness :
  2002 ∈ tracked (track_admin promotion_update (sample_context []) (sample_world 3)).2
           (-100500)
  /\ tracked (track_admin demotion_update (sample_context [])
                (track_admin promotion_update (sample_context [])
                   (sample_world 3)).2).2 (-100500)
     = tracked (track_admin promotion_update (sample_context []) (sample_world 3)).2
         (-100500).
Proof.
  split.
  - apply (proj1 (proj2 (track_admin_only_adds promotion_update (sample_context [])
                           (sample_world 3)))
             (ChatMemberUpdated.mk sample_chat
                (ChatMember.mk sample_member ADMINISTRATOR)));
      reflexivity.
  - apply (proj1 (proj2 (proj2 (track_admin_only_adds demotion_update
                                  (sample_context []) _)))
             (ChatMemberUpdated.mk sample_chat (ChatMember.mk sample_member MEMBER)));
      [reflexivity | done].
Defined.

(** ** Startup *)

Lemma blank_default_storage : blank "./warnings.json" = false.
Proof. by vm_compute. Qed.

(** X12: the settings [from_env] returns have a limit of at least 1, the
    token of the environment as it is set there, which is not blank, and a
    storage path that is not blank: the one of the environment, or
    ./warnings.json. *)
Theorem from_env_settings_invariants (environ : environ) (st : Settings.t) :
  Settings.from_env environ = Ok st ->
  1 <= Settings.warnings_limit st
  /\ environ !! "TELEGRAM_BOT_TOKEN" = Some (Settings.bot_token st)
  /\ blank (Settings.bot_token st) = false
  /\ blank (Settings.storage_path st) = false
  /\ (environ !! "WARNINGS_STORAGE" = Some (Settings.storage_path st)
      \/ Settings.storage_path st = "./warnings.json").
Proof.
  unfold Settings.from_env. rewrite !_env_unset_or_blank.
  unfold unset_or_blank at 1.
  destruct (environ !! "TELEGRAM_BOT_TOKEN") as [token|] eqn:Htok; [|done].
  destruct (blank token) eqn:Hblank; [done|].
  destruct token as [|c token]; [done|].
  destruct (Py.int _) as [n|]; [|done].
  intros [= <-]. cbn [Settings.warnings_limit Settings.bot_token Settings.storage_path].
  split; [lia|]. split; [done|]. split; [done|].
  unfold unset_or_blank.
  destruct (environ !! "WARNINGS_STORAGE") as [value|]; cbn [default].
  - destruct (blank value) eqn:Hv; cbn [default].
    + split; [apply blank_default_storage | by right].
    + split; [done | by left].
  - split; [apply blank_default_storage | by right].
Qed.

(** X12 at an environment with the token only. *)
Lemma from_env_settings_invariants_witness :
  1 <= Settings.warnings_limit (Settings.mk "123:abc" 3 "./warnings.json" true)
  /\ token_environ !! "TELEGRAM_BOT_TOKEN" = Some "123:abc".
Proof.
  destruct (from_env_settings_invariants token_environ
              (Settings.mk "123:abc" 3 "./warnings.json" true))
    as (H1 & H2 & _); [by vm_compute|].
  by split.
Defined.

(** X13: [run_bot] raises the error of the configuration whatever is on the
    disk, and otherwise the error of the store; it starts with the settings
    of the environment, a store on the storage path that reloads the same
    from the disk, no [admin_ids] entry, no call made and the disk as it
    was; when no file is at the storage path, or a file in the format, it
    starts. *)
Theorem run_bot_startup (environ : environ) (disk : files) :
  (forall e, Settings.from_env environ = Raise e -> run_bot environ disk = Raise e)
  /\ (forall w,
        run_bot environ disk = Ok w ->
        Settings.from_env environ = Ok (settings (data w))
        /\ WarningStore.path (warnings (data w))
           = Settings.storage_path (settings (data w))
        /\ admin_ids (data w) = None /\ calls w = [] /\ bot.disk w = disk
        /\ reloads_same (store_of w))
  /\ (forall st,
        Settings.from_env environ = Ok st ->
        (forall doc, disk !! Settings.storage_path st = Some doc ->
                     is_document doc = true) ->
        exists w, run_bot environ disk = Ok w
                  /\ counts_nonneg (WarningStore._data (warnings (data w)))).
Proof.
  unfold run_bot, build_application. split; [|split].
  - by intros e ->.
  - intros w. destruct (Settings.from_env environ) as [st|]; [|done].
    destruct (WarningStore.__init__ _ disk) as [self|] eqn:Hinit; [|done].
    intros [= <-]. cbn. pose proof (init_path _ _ _ Hinit) as Hpath.
    repeat split; try done.
    exists self. unfold store_of. cbn. by rewrite Hpath.
  - intros st -> Hdoc.
    destruct (disk !! Settings.storage_path st) as [doc|] eqn:Hfile.
    + destruct (init_of_document _ disk doc Hfile (Hdoc doc eq_refl))
        as (self & -> & Hnonneg).
      by eexists.
    + rewrite (init_without_file _ disk Hfile).
      eexists. split; [done|]. cbn. intros c users u n. by rewrite lookup_empty.
Qed.

(** X13 at the environment with the token only and an empty disk. *)
Lemma run_bot_startup_witness :
  exists w, run_bot token_environ ∅ = Ok w
            /\ WarningStore.path (warnings (data w)) = "./warnings.json"
            /\ admin_ids (data w) = None.
Proof.
  destruct (proj2 (proj2 (run_bot_startup token_environ ∅))
              (Settings.mk "123:abc" 3 "./warnings.json" true))
    as (w & Hw & _); [by vm_compute | by intros doc [=] |].
  destruct (proj1 (proj2 (run_bot_startup token_environ ∅)) w Hw)
    as (Hst & Hpath & Hids & _).
  exists w. split; [done|]. split; [|done].
  rewrite Hpath.
  assert (Settings.from_env token_environ
          = Ok (Settings.mk "123:abc" 3 "./warnings.json" true)) as Henv
    by (by vm_compute).
  rewrite Henv in Hst. by injection Hst as <-.
Defined.

(** ** Sessions *)











Lemma get_all_users (self : WarningStore.t) (disk : files) (chat_id : Z) :
  (WarningStore.get_all chat_id (self, disk)).1
  = WarningStore.users_of (WarningStore._data self) (Py.str chat_id).
Proof. reflexivity. Qed.






(** ** What the commands report *)

(** The store after a [/warn] that goes ahead. *)
Lemma warn_store (update : Update.t) (context : context) (w : world)
    (target : User.t) :
  target_of update = Some target ->
  invoker_is_admin update context = true ->
  store_of (warn update context w).2
  = if (Settings.warnings_limit (settings (data w))
        <=? target_count update target w + 1)%Z
    then (WarningStore.reset (Chat.id (Update.effective_chat update)) (User.id target)
            (WarningStore.increment (Chat.id (Update.effective_chat update))
               (User.id target) (store_of w)).2).2
    else (WarningStore.increment (Chat.id (Update.effective_chat update))
            (User.id target) (store_of w)).2.
Proof.
  intros Ht Hadmin.
  destruct (target_of_Some _ _ Ht) as (message & replied & Hm & Hr & Hf).
  pose proof Hadmin as Hadmin'.
  unfold invoker_is_admin, fetched_admin_ids in Hadmin.
  unfold target_count, store_of. destruct w as [[st self ids] dsk cs].
  destruct (increment_count self dsk (Chat.id (Update.effective_chat update))
              (User.id target)) as [Hret _].
  unfold warn. run. rewrite Hm, Hr. cbn [negb]. rewrite Hf, Hadmin.
  cbn [negb fst snd data disk calls warnings settings] in *.
  destruct (WarningStore.increment _ _ _) as [n [self1 disk1]] eqn:Hinc.
  cbn [negb fst snd data disk calls warnings settings] in *. subst n.
  destruct (_ <=? _)%Z eqn:Hlim; [|done].
  rewrite (mute_user_mutes update context _ message target Hm Ht Hadmin').
  cbn [after_calls negb fst snd data disk calls warnings settings].
  destruct (WarningStore.reset _ _ _) as [[] [self2 disk2]] eqn:Hreset.
  done.
Qed.

Lemma warn_info_run (update : Update.t) (context : context) (w : world)
    (message : Message.t) (target : User.t) :
  Update.message update = Some message ->
  target_of update = Some target ->
  callback on_warns update context w
  = (Ok tt,
     after_calls w
       [Api.reply_text (Message.message_id message)
          (text_warns target (target_count update target w))]).
Proof.
  intros Hm Ht.
  destruct (target_of_Some _ _ Ht) as (message' & replied & Hm' & Hr & Hf).
  rewrite Hm in Hm'. injection Hm' as <-.
  cbn [callback]. unfold warn_info. run. rewrite Hm, Hr. cbn. rewrite Hf. cbn.
  by destruct w as [[st self ids] dsk cs].
Qed.

Lemma stats_run (update : Update.t) (context : context) (w : world)
    (message : Message.t) :
  Update.message update = Some message ->
  callback on_stats update context w
  = (Ok tt,
     after_calls w
       [Api.reply_text (Message.message_id message)
          (if bool_decide
                ((WarningStore.get_all (Chat.id (Update.effective_chat update))
                    (store_of w)).1 = ∅)
           then text_no_warnings
           else text_stats
                  (map_to_list
                     (WarningStore.get_all (Chat.id (Update.effective_chat update))
                        (store_of w)).1))]).
Proof.
  intros Hm. cbn [callback]. unfold stats, store_of. run. cbn.
  destruct w as [[st self ids] dsk cs]. cbn.
  by destruct (bool_decide _); cbn; rewrite Hm.
Qed.

Lemma users_after_increment (st : WarningStore.t * files) (chat_id user_id : Z) :
  WarningStore.users_of (WarningStore._data (WarningStore.increment chat_id user_id st).2.1)
    (Py.str chat_id)
  = <[Py.str user_id := count_of st.1 chat_id user_id + 1]>
      (WarningStore.users_of (WarningStore._data st.1) (Py.str chat_id)).
Proof.
  destruct st as [self disk]. unfold WarningStore.increment. cbn.
  rewrite users_of_setitem. by rewrite decide_True.
Qed.

Lemma users_after_reset (st : WarningStore.t * files) (chat_id user_id : Z) :
  WarningStore.users_of (WarningStore._data (WarningStore.reset chat_id user_id st).2.1)
    (Py.str chat_id)
  = delete (Py.str user_id)
      (WarningStore.users_of (WarningStore._data st.1) (Py.str chat_id)).
Proof.
  destruct st as [self disk]. unfold WarningStore.reset.
  destruct (WarningStore.users_of (WarningStore._data self) (Py.str chat_id)
              !! Py.str user_id) eqn:H; cbn.
  - unfold WarningStore.users_of at 1. by rewrite lookup_insert_eq.
  - by rewrite delete_id.
Qed.

(** X16: [/warns] needs no administrator and fetches none: it answers any
    user with the stored count of the author of the replied-to message, and
    changes nothing. Sent after a [/warn] of the same target, it reports the
    count that warn announced, or 0 when that warn reached the limit. *)
Theorem warns_reports_what_warn_stored
    (update : Update.t) (context : context) (w : world)
    (message : Message.t) (target : User.t) :
  Update.message update = Some message ->
  target_of update = Some target ->
  callback on_warns update context w
  = (Ok tt,
     after_calls w
       [Api.reply_text (Message.message_id message)
          (text_warns target (target_count update target w))])
  /\ (invoker_is_admin update context = true ->
      callback on_warns update context (warn update context w).2
      = (Ok tt,
         after_calls (warn update context w).2
           [Api.reply_text (Message.message_id message)
              (text_warns target
                 (if (Settings.warnings_limit (settings (data w))
                      <=? target_count update target w + 1)%Z
                  then 0 else target_count update target w + 1))])).
Proof.
  intros Hm Ht. split; [by apply warn_info_run|].
  intros Hadmin. rewrite (warn_info_run update context _ message target Hm Ht).
  destruct (warn_step update context w message target Hm Ht Hadmin) as (_ & _ & Hstep).
  by destruct (_ <=? _)%Z; destruct Hstep as [_ ->].
Qed.

(** X16 at the sample member, after two warns with limit 3. *)
Lemma warns_reports_what_warn_stored_witness :
  callback on_warns (reply_update sample_member) (sample_context []) warned_twice
  = (Ok tt,
     after_calls warned_twice [Api.reply_text 41 (text_warns sample_member 2)]).
Proof.
  destruct (warns_reports_what_warn_stored (reply_update sample_member)
              (sample_context []) warned_twice
              (command_message sample_member (Some member_message)) sample_member
              eq_refl eq_refl) as [Hrun _].
  rewrite Hrun. by vm_compute.
Defined.

(** X17: [/stats] sent after a [/warn] of a target lists the target with the
    count that warn announced when the warn stayed below the limit, and does
    not list the target when the warn reached the limit. *)
Theorem stats_after_warn
    (update : Update.t) (context : context) (w : world)
    (message : Message.t) (target : User.t) :
  Update.message update = Some message ->
  target_of update = Some target ->
  invoker_is_admin update context = true ->
  exists body,
    callback on_stats update context (warn update context w).2
    = (Ok tt,
       after_calls (warn update context w).2
         [Api.reply_text (Message.message_id message) body])
    /\ (target_count update target w + 1 < Settings.warnings_limit (settings (data w)) ->
        exists lines,
          body = text_stats lines
          /\ (Py.str (User.id target), target_count update target w + 1) ∈ lines)
    /\ (Settings.warnings_limit (settings (data w)) <= target_count update target w + 1 ->
        forall lines, body = text_stats lines ->
        forall count, (Py.str (User.id target), count) ∉ lines).
Proof.
  intros Hm Ht Hadmin. eexists. split; [by apply stats_run|].
  pose proof (warn_store update context w target Ht Hadmin) as Hstore.
  destruct (store_of (warn update context w).2) as [self' disk'] eqn:Hafter.
  rewrite get_all_users. unfold target_count in *.
  set (chat_id := Chat.id (Update.effective_chat update)) in *.
  set (user_id := User.id target) in *.
  split.
  - intros Hlt. apply Z.leb_gt in Hlt. rewrite Hlt in Hstore.
    assert (WarningStore.users_of (WarningStore._data self') (Py.str chat_id)
            !! Py.str user_id
            = Some (count_of (warnings (data w)) chat_id user_id + 1)) as Hentry.
    { change self' with (self', disk').1.
      rewrite Hstore. unfold store_of.
      by rewrite users_after_increment, lookup_insert_eq. }
    rewrite bool_decide_eq_false_2.
    + eexists. split; [reflexivity|]. by apply elem_of_map_to_list.
    + intros Hempty. by rewrite Hempty, lookup_empty in Hentry.
  - intros Hle. apply Z.leb_le in Hle. rewrite Hle in Hstore.
    assert (WarningStore.users_of (WarningStore._data self') (Py.str chat_id)
            !! Py.str user_id = None) as Hentry.
    { change self' with (self', disk').1.
      rewrite Hstore. by rewrite users_after_reset, lookup_delete_eq. }
    intros lines Hbody count Hin.
    destruct (bool_decide _); [done|]. injection Hbody as <-.
    apply elem_of_map_to_list in Hin. congruence.
Qed.

(** X17 at the second and the third warn of the sample member, limit 3. *)
Lemma stats_after_warn_witness :
  callback on_stats (reply_update sample_admin) (sample_context []) warned_twice
  = (Ok tt,
     after_calls warned_twice [Api.reply_text 41 (text_stats [("2002", 2)])])
  /\ callback on_stats (reply_update sample_admin) (sample_context []) warned_thrice
     = (Ok tt, after_calls warned_thrice [Api.reply_text 41 text_no_warnings]).
Proof.
  destruct (stats_after_warn (reply_update sample_admin) (sample_context [])
              warned_once (command_message sample_admin (Some member_message))
              sample_member eq_refl eq_refl)
    as (body & Hrun & _); [by vm_compute|].
  split; [|by vm_compute].
  fold warned_twice in Hrun. rewrite Hrun. by vm_compute.
Defined.

(** X18: [/resetwarns] by an administrator, in reply to a known author,
    fetches the administrators and confirms, its only calls; it leaves the
    target without entry, so [get] reads 0, and leaves the count of every
    other pair as it was. *)
Theorem resetwarns_clears_only_the_target
    (update : Update.t) (context : context) (w : world)
    (message : Message.t) (target : User.t) :
  Update.message update = Some message ->
  target_of update = Some target ->
  invoker_is_admin update context = true ->
  (callback on_resetwarns update context w).1 = Ok tt
  /\ calls (callback on_resetwarns update context w).2
     = (calls w
        ++ [Api.get_chat_administrators (Chat.id (Update.effective_chat update));
            Api.reply_text (Message.message_id message) (text_reset_done target)])%list
  /\ target_count update target (callback on_resetwarns update context w).2 = 0
  /\ (WarningStore.get_all (Chat.id (Update.effective_chat update))
        (store_of (callback on_resetwarns update context w).2)).1
     !! Py.str (User.id target) = None
  /\ (forall chat_id user_id : Z,
        (chat_id, user_id) <> (Chat.id (Update.effective_chat update), User.id target) ->
        count_of (warnings (data (callback on_resetwarns update context w).2))
                 chat_id user_id
        = count_of (warnings (data w)) chat_id user_id).
Proof.
  intros Hm Ht Hadmin.
  destruct (target_of_Some _ _ Ht) as (message' & replied & Hm' & Hr & Hf).
  rewrite Hm in Hm'. injection Hm' as <-.
  unfold invoker_is_admin, fetched_admin_ids in Hadmin.
  unfold target_count, store_of. destruct w as [[st self ids] dsk cs].
  pose proof (reset_count self dsk (Chat.id (Update.effective_chat update))
                (User.id target)) as Hzero.
  pose proof (users_after_reset (self, dsk) (Chat.id (Update.effective_chat update))
                (User.id target)) as Husers.
  pose proof (λ c u H, reset_count_other self dsk c u
                         (Chat.id (Update.effective_chat update)) (User.id target) H)
    as Hother.
  cbn [callback]. unfold reset_warns. run. rewrite Hm, Hr. cbn [negb].
  rewrite Hf, Hadmin. cbn [negb fst snd data disk calls warnings settings] in *.
  destruct (WarningStore.reset _ _ _) as [[] [self2 disk2]] eqn:Hreset.
  cbn [negb fst snd data disk calls warnings settings] in *.
  split; [done|]. split; [by rewrite <- !app_assoc|]. split; [done|].
  split; [|done].
  rewrite get_all_users, Husers. apply lookup_delete_eq.
Qed.

(** X18 at the sample member after two warns. *)
Lemma resetwarns_clears_only_the_target_witness :
  target_count (reply_update sample_admin) sample_member warned_twice = 2
  /\ target_count (reply_update sample_admin) sample_member
       (callback on_resetwarns (reply_update sample_admin) (sample_context [])
          warned_twice).2 = 0.
Proof.
  split; [by vm_compute|].
  apply (resetwarns_clears_only_the_target (reply_update sample_admin)
           (sample_context []) warned_twice
           (command_message sample_admin (Some member_message)) sample_member);
    by vm_compute.
Defined.

(** X19: [/lock] and [/unlock] act before they answer. On an update without
    [update.message] (a command sent by editing a message) from an
    administrator, the permissions of the chat are set and then the
    confirmation raises [AttributeError]: the chat is locked or unlocked
    although the handler fails. From another user nothing is set. *)
Theorem lock_without_message_acts_then_raises
    (update : Update.t) (context : context) (w : world) :
  Update.message update = None ->
  let chat_id := Chat.id (Update.effective_chat update) in
  (invoker_is_admin update context = true ->
   callback on_lock update context w
   = (Raise AttributeError,
      after_calls w [Api.get_chat_administrators chat_id;
                     Api.set_chat_permissions chat_id ChatPermissions.muted])
   /\ callback on_unlock update context w
      = (Raise AttributeError,
         after_calls w [Api.get_chat_administrators chat_id;
                        Api.set_chat_permissions chat_id ChatPermissions.open]))
  /\ (invoker_is_admin update context = false ->
      callback on_lock update context w
      = (Raise AttributeError, after_calls w [Api.get_chat_administrators chat_id])
      /\ callback on_unlock update context w
         = (Raise AttributeError, after_calls w [Api.get_chat_administrators chat_id])).
Proof.
  intros Hm chat_id. unfold invoker_is_admin, fetched_admin_ids.
  cbn [callback]. unfold lock_chat, unlock_chat. run. rewrite Hm.
  split; intros ->; cbn; by rewrite <- ?app_assoc.
Qed.

(** X19 at [/lock] sent by the sample administrator by editing a message. *)
Lemma lock_without_message_acts_then_raises_witness :
  callback on_lock (edited_update sample_admin) (sample_context []) (sample_world 3)
  = (Raise AttributeError,
     after_calls (sample_world 3)
       [Api.get_chat_administrators (-100500);
        Api.set_chat_permissions (-100500) ChatPermissions.muted]).
Proof.
  apply (proj1 (lock_without_message_acts_then_raises (edited_update sample_admin)
                  (sample_context []) (sample_world 3) eq_refl)).
  by vm_compute.
Defined.

(** X20: every restriction that mutes, whether from [/mute] with any
    arguments or from the mute that follows a warning at the limit, ends at
    least one minute after the date of the command: no handler issues a mute
    that ends at or before the command. *)
Theorem mutes_end_after_the_command
    (h : registered) (update : Update.t) (context : context) (w : world)
    (message : Message.t) :
  Update.message update = Some message ->
  exists new,
    calls (callback h update context w).2 = (calls w ++ new)%list
    /\ Forall (mute_ends_after (Message.date message)) new.
Proof.
  intros Hm. destruct w as [[st self ids] dsk cs].
  pose proof (mute_minutes_positive None (args context) (or_introl eq_refl)) as Hcmd.
  pose proof (mute_minutes_positive (Some 60) (args context) (or_intror eq_refl))
    as Hauto.
  destruct h; split_update update; cbn in Hm; try discriminate; injection Hm as <-;
    exec;
    first [ by (exists []; rewrite app_nil_r)
          | eexists; split; [by rewrite <- ?app_assoc|];
            rewrite ?Forall_fmap; repeat constructor; cbn;
            first [ by apply Forall_true | by intros [=]
                  | intros _; eexists; split; [|reflexivity]; assumption ] ].
Qed.

(** X20 at [/mute -5] of the sample administrator. *)
Lemma mutes_end_after_the_command_witness :
  exists new,
    calls (callback on_mute (reply_update sample_admin) (sample_context ["-5"])
             (sample_world 3)).2 = new
    /\ Forall (mute_ends_after 1700000060) new.
Proof.
  destruct (mutes_end_after_the_command on_mute (reply_update sample_admin)
              (sample_context ["-5"]) (sample_world 3)
              (command_message sample_admin (Some member_message)) eq_refl)
    as (new & Hcalls & Hall).
  exists new. split; [|exact Hall]. by rewrite Hcalls.
Defined.

(** X21: only an administrator makes the bot moderate. In every handler run
    whose invoking user is not in the fetched administrator list, no
    restriction, ban, change of permissions or pin is made; the one call that
    moderates is the deletion of a link by [block_links]. *)
Theorem only_administrators_moderate
    (h : registered) (update : Update.t) (context : context) (w : world) :
  exists new,
    calls (callback h update context w).2 = (calls w ++ new)%list
    /\ (invoker_is_admin update context = true \/ Forall (open_to_all h) new).
Proof.
  destruct w as [[st self ids] dsk cs]. unfold open_to_all.
  destruct h; split_update update;
    unfold invoker_is_admin, fetched_admin_ids, _is_admin; exec;
    first [ by (exists []; rewrite app_nil_r; split; [done | right; constructor])
          | eexists; split; [by rewrite <- ?app_assoc|];
            first [ by left
                  | right; rewrite ?Forall_fmap;
                    repeat (apply Forall_cons_2;
                            [first [ by left | by (right; split; [|eexists]) ]|]);
                    first [ apply Forall_nil_2
                          | by (apply Forall_true; intros; left) ] ] ].
Qed.
